(** * Task Manager API: the request handlers of [app/main.py]

    A shallow embedding of the FastAPI handlers (list, create, update, delete,
    free-form message, statistics) together with the two services they drive:
    the in-process cache and the n8n webhook gateway.

    Python values are embedded as follows.
    - [str] is [string]: the UTF-8 bytes of the text.
    - values decoded from JSON (the gateway's replies, the cached payloads)
      are [json]; a Python [dict] is an association list read by its first
      binding of a key.
    - [float] is IEEE binary64, as [spec_float] with precision 53 and
      maximal exponent 1024.
    - the handlers are [async] functions that run to completion between two
      [await]s; one request is embedded as one function on the [world]
      (cache, clock, log of the gateway calls).  An exception leaves the
      mutations made before it in place, as in Python.
    - [logger] calls write to the log only and are left out. *)

From Stdlib Require Import ZArith Ascii String List Lia Bool DecimalString.
From Stdlib Require Import SpecFloat.
From stdpp Require Import base gmap strings list.

#[local] Set Warnings "-register-all".
Local Open Scope Z_scope.

(** ** Python values *)

Inductive json : Type :=
| JNull
| JBool (b : bool)
| JInt (n : Z)
| JFloat (f : spec_float)
| JStr (s : string)
| JList (l : list json)
| JDict (d : list (string * json)).

Abbreviation dict := (list (string * json)).

(** [d.get(key)] *)
Fixpoint dict_get (key : string) (d : dict) : option json :=
  match d with
  | [] => None
  | (k, v) :: d' => if String.eqb k key then Some v else dict_get key d'
  end.

(** [d.get(key, default)] *)
Definition dict_get_default (key : string) (default : json) (d : dict) : json :=
  match dict_get key d with
  | Some v => v
  | None => default
  end.

(** [bool(v)], the test an [if v:] performs. *)
Definition truthy (v : json) : bool :=
  match v with
  | JNull => false
  | JBool b => b
  | JInt n => negb (n =? 0)
  | JFloat f => match f with S754_zero _ => false | _ => true end
  | JStr s => negb (String.eqb s "")
  | JList l => match l with [] => false | _ => true end
  | JDict d => match d with [] => false | _ => true end
  end.

(** [if s:] on an [Optional[str]]. *)
Definition truthy_opt (o : option string) : bool :=
  match o with
  | Some s => negb (String.eqb s "")
  | None => false
  end.

Definition type_name (v : json) : string :=
  match v with
  | JNull => "NoneType"
  | JBool _ => "bool"
  | JInt _ => "int"
  | JFloat _ => "float"
  | JStr _ => "str"
  | JList _ => "list"
  | JDict _ => "dict"
  end.

(** ** Exceptions *)

Inductive exn : Type :=
| RemoteError (msg : string)            (* raised by [N8NService.send_message] *)
| TypeError (msg : string)
| AttributeError (msg : string)
| RequestValidationError (msg : string) (* FastAPI, on a rejected request body *)
| HTTPException (status_code : Z) (detail : string).

(** [str(e)] *)
Definition exn_str (e : exn) : string :=
  match e with
  | RemoteError m | TypeError m | AttributeError m | RequestValidationError m => m
  | HTTPException c d => d
  end.

(** The status code the registered exception handlers answer with. *)
Definition http_status_of (e : exn) : Z :=
  match e with
  | HTTPException c _ => c
  | RequestValidationError _ => 422
  | _ => 500
  end.

Definition HTTP_400_BAD_REQUEST : Z := 400.
Definition HTTP_500_INTERNAL_SERVER_ERROR : Z := 500.

(** [len(v)] *)
Definition py_len (v : json) : exn + nat :=
  match v with
  | JStr s => inr (String.length s)
  | JList l => inr (length l)
  | JDict d => inr (length d)
  | _ => inl (TypeError ("object of type '" +:+ type_name v +:+ "' has no len()"))
  end.

(** The values a [for t in v] visits: the items of a list, the keys of a
    dict, the characters of a string. *)
Fixpoint chars (s : string) : list json :=
  match s with
  | EmptyString => []
  | String c s' => JStr (String c EmptyString) :: chars s'
  end.

Definition py_iter (v : json) : exn + list json :=
  match v with
  | JList l => inr l
  | JDict d => inr (map (fun kv => JStr (fst kv)) d)
  | JStr s => inr (chars s)
  | _ => inl (TypeError ("'" +:+ type_name v +:+ "' object is not iterable"))
  end.

(** [t.get(key)] on an arbitrary value: only a dict has the method. *)
Definition py_get (t : json) (key : string) : exn + option json :=
  match t with
  | JDict d => inr (dict_get key d)
  | _ => inl (AttributeError
                ("'" +:+ type_name t +:+ "' object has no attribute 'get'"))
  end.

(** [v == s] for a string literal [s]. *)
Definition eq_str (v : option json) (s : string) : bool :=
  match v with
  | Some (JStr s') => String.eqb s' s
  | _ => false
  end.

(** ** Strings *)

Definition lower_ascii (c : ascii) : ascii :=
  let n := nat_of_ascii c in
  if ((65 <=? n) && (n <=? 90))%nat then ascii_of_nat (n + 32) else c.

(** [s.lower()].  Only the letters A-Z change among the bytes below 128.
    The bytes of a non-ASCII character are kept: the characters whose
    lowercase form brings in an ASCII letter (U+0130, U+212A) bring in [i]
    and [k], letters of no keyword searched below. *)
Fixpoint lower (s : string) : string :=
  match s with
  | EmptyString => EmptyString
  | String c s' => String (lower_ascii c) (lower s')
  end.

Fixpoint startswith (p s : string) : bool :=
  match p, s with
  | EmptyString, _ => true
  | String a p', String b s' => Ascii.eqb a b && startswith p' s'
  | String _ _, EmptyString => false
  end.

(** [sub in s] *)
Fixpoint str_in (sub s : string) : bool :=
  startswith sub s ||
  match s with
  | EmptyString => false
  | String _ s' => str_in sub s'
  end.

(** [sep.join(parts)] *)
Fixpoint join (sep : string) (parts : list string) : string :=
  match parts with
  | [] => ""
  | [p] => p
  | p :: rest => p +:+ sep +:+ join sep rest
  end.

(** ** Floats *)

Definition prec64 : Z := 53.
Definition emax64 : Z := 1024.

(** [float(n)] for the integer [n], exact as an unnormalised pair. *)
Definition float_of_Z (n : Z) : spec_float :=
  match n with
  | Z0 => S754_zero false
  | Zpos p => S754_finite false p 0
  | Zneg p => S754_finite true p 0
  end.

(** [a / b] on two [int]s: the correctly rounded quotient. *)
Definition int_truediv (a b : Z) : spec_float :=
  SFdiv prec64 emax64 (float_of_Z a) (float_of_Z b).

Definition float_mul (x y : spec_float) : spec_float :=
  SFmul prec64 emax64 x y.

(** Nearest integer to [n / d] for [d > 0], ties to the even one. *)
Definition div_half_even (n d : Z) : Z :=
  let q := n / d in
  let r := n mod d in
  match 2 * r ?= d with
  | Lt => q
  | Gt => q + 1
  | Eq => if Z.even q then q else q + 1
  end.

(** [round(x, ndigits)] for a float [x] and [ndigits >= 0]: the exact value
    of [x] is rounded to [ndigits] decimals (ties to even), and the decimal
    obtained is converted back to the nearest float. *)
Definition py_round (x : spec_float) (ndigits : nat) : spec_float :=
  match x with
  | S754_finite s m e =>
      let scale := 10 ^ Z.of_nat ndigits in
      let k := match e with
               | Zneg p => div_half_even (Zpos m * scale) (2 ^ Zpos p)
               | _ => Zpos m * scale * 2 ^ e
               end in
      match k with
      | Zpos kp => SFdiv prec64 emax64 (S754_finite s kp 0) (float_of_Z scale)
      | _ => S754_zero s
      end
  | _ => x
  end.

(** The float a decimal literal [digits / 10^frac] denotes. *)
Definition float_literal (digits : Z) (frac : nat) : spec_float :=
  SFdiv prec64 emax64 (float_of_Z digits) (float_of_Z (10 ^ Z.of_nat frac)).

(** ** The world a request runs in *)

Record cache_entry : Type := CacheEntry {
  value : json;
  expires_at : Z
}.

(** A call [n8n_service.send_message(message, session_id=...)]; the session
    is [None] where the handler passes none. *)
Record call : Type := Call {
  call_message : string;
  call_session : option string
}.

(** What the webhook answers to a call: after [latency] microseconds, the
    decoded JSON object or an exception with its text. *)
Record reply : Type := Reply {
  latency : N;
  outcome : string + dict
}.

Record world : Type := World {
  cache : gmap string cache_entry;   (* [cache_service] *)
  clock : Z;                         (* [datetime.utcnow()], in microseconds *)
  sent : list call                   (* calls made to the gateway, oldest first *)
}.

Definition set_cache (f : gmap string cache_entry → gmap string cache_entry)
    (w : world) : world :=
  {| cache := f (cache w); clock := clock w; sent := sent w |}.

(** A computation that reads and writes the world and may raise. *)
Definition M (A : Type) : Type := world → (exn + A) * world.

Definition ret {A} (a : A) : M A := fun w => (inr a, w).

Definition raise {A} (e : exn) : M A := fun w => (inl e, w).

Definition bind {A B} (c : M A) (k : A → M B) : M B :=
  fun w =>
    match c w with
    | (inr a, w') => k a w'
    | (inl e, w') => (inl e, w')
    end.

(** [try: c  except Exception as e: h e] *)
Definition try_except {A} (c : M A) (h : exn → M A) : M A :=
  fun w =>
    match c w with
    | (inr a, w') => (inr a, w')
    | (inl e, w') => h e w'
    end.

(** A pure step that may raise. *)
Definition lift {A} (r : exn + A) : M A := fun w => (r, w).

Notation "'do' x <- c ; k" := (bind c (fun x => k))
  (at level 10, x name, c at level 100, k at level 200).

Definition utcnow : M Z := fun w => (inr (clock w), w).

Definition timedelta_seconds (s : Z) : Z := s * 1000000.

(** ** Response models *)

(** Modelled from the spec: the response models are declared in
    [app/models.py], not among the sources at hand; they are the records of
    the fields the handlers fill in, each with its own timestamp field. *)
Record TaskListResponse : Type := {
  tasks : json;
  count : nat;
  list_timestamp : Z
}.

Record TaskResponse : Type := {
  success : bool;
  message : string;
  data : dict;
  task_timestamp : Z
}.

Record MessageResponse : Type := {
  response : dict;
  message_timestamp : Z
}.

Record ByStatus : Type := {
  TODO : nat;
  IN_PROGRESS : nat;
  DONE : nat
}.

Record Stats : Type := {
  total_tasks : nat;
  by_status : ByStatus;
  completion_rate : spec_float;
  stats_timestamp : Z
}.

(** ** Request models *)

(** Modelled from the spec: the request models of [app/models.py], with the
    fields the handlers read.  The fields of [TaskUpdate] are [status],
    [description] and [deadline] in the source and the field of
    [MessageRequest] is [message]; they are renamed here because a record
    field is a global name. *)
Record TaskCreate : Type := {
  task_name : string;
  status : option string;
  description : option string;
  deadline : option string
}.

Record TaskUpdate : Type := {
  new_status : option string;
  new_description : option string;
  new_deadline : option string
}.

Record MessageRequest : Type := {
  text : string;
  session_id : option string
}.

Definition json_opt (o : option string) : json :=
  match o with
  | Some s => JStr s
  | None => JNull
  end.

(** [task.dict()] *)
Definition TaskCreate_dict (t : TaskCreate) : dict :=
  [("task_name", JStr (task_name t)); ("status", json_opt (status t));
   ("description", json_opt (description t)); ("deadline", json_opt (deadline t))].

Definition field (k : string) (o : option string) : dict :=
  match o with
  | Some s => [(k, JStr s)]
  | None => []
  end.

(** [task_update.dict(exclude_none=True)] *)
Definition TaskUpdate_dict_exclude_none (u : TaskUpdate) : dict :=
  field "status" (new_status u) ++ field "description" (new_description u)
  ++ field "deadline" (new_deadline u).

Record HealthResponse : Type := {
  health_status : string;
  health_timestamp : Z;
  version : string;
  services : list (string * string)
}.

Inductive request : Type :=
| GetTasks (status_filter : option string) (use_cache : bool)
| PostTasks (body : TaskCreate)
| PutTask (name : string) (task_update : TaskUpdate)
| DeleteTask (name : string)
| PostMessage (message_request : MessageRequest)
| GetStats
| GetHealth
| GetRoot.

(** The three structured mutations. *)
Inductive mutation : Type :=
| Create (task : TaskCreate)
| Update (name : string) (task_update : TaskUpdate)
| Delete (name : string).

Inductive event : Type :=
| Request (r : request)
| Elapse (d : N).

(** The process starts with an empty cache. *)
Definition startup (now : Z) : world :=
  {| cache := ∅; clock := now; sent := [] |}.

(** ** The message templates, as the specification words them *)

Module Template.

(** An optional part: rendered when the field is supplied and not empty. *)
Definition opt (o : option string) (render : string → string) : string :=
  match o with
  | Some (String c s) => render (String c s)
  | _ => ""
  end.

Definition opt_list (o : option string) (render : string → string) : list string :=
  match o with
  | Some (String c s) => [render (String c s)]
  | _ => []
  end.

Definition list_query (status_filter : option string) : string :=
  "Show me all tasks" +:+ opt status_filter (fun f => " with status " +:+ f).

Definition create (name : string) (st descr dl : option string) : string :=
  "Create a new task called '" +:+ name +:+ "'"
  +:+ opt st (fun v => " with status '" +:+ v +:+ "'")
  +:+ opt descr (fun v => " and description '" +:+ v +:+ "'")
  +:+ opt dl (fun v => " with deadline '" +:+ v +:+ "'").

Definition to (fld v : string) : string := fld +:+ " to '" +:+ v +:+ "'".

Definition changes (st descr dl : option string) : list string :=
  opt_list st (to "status") ++ opt_list descr (to "description")
  ++ opt_list dl (to "deadline").

Definition update (name : string) (st descr dl : option string) : string :=
  "Update the task '" +:+ name +:+ "' - change " +:+ join ", " (changes st descr dl).

Definition delete (name : string) : string :=
  "Delete the task '" +:+ name +:+ "' - yes, I'm sure".

End Template.

(** ** Test doubles

    The agents and payloads of [test.py], where [n8n_service] is replaced
    by a mock with a fixed return value. *)

Module Mock.

(** Answers every call with [body], a quarter of a second later. *)
Definition agent (body : dict) : list call → call → reply :=
  fun _ _ => Reply 250000 (inr body).

(** Answers its first call with [first] and the later ones with [later]. *)
Definition agent_then (first later : dict) : list call → call → reply :=
  fun history _ =>
    match history with
    | [] => Reply 250000 (inr first)
    | _ => Reply 250000 (inr later)
    end.

(** Fails every call with the text [err], a quarter of a second later. *)
Definition agent_down (err : string) : list call → call → reply :=
  fun _ _ => Reply 250000 (inl err).

Definition probe : list call → string + bool := fun _ => inr true.

Definition ok : dict := [("success", JBool true)].

Definition test_task : dict :=
  [("task_name", JStr "Test Task"); ("status", JStr "TODO");
   ("description", JStr "Test description"); ("deadline", JStr "2025-12-31")].

Definition three_tasks : list dict :=
  [[("status", JStr "TODO")]; [("status", JStr "IN PROGRESS")];
   [("status", JStr "DONE")]].

(** One second after start, with a list cached until the sixtieth. *)
Definition cached_world : world :=
  {| cache := {["all_tasks" := CacheEntry (JList [JDict test_task]) 60000000]};
     clock := 1000000;
     sent := [] |}.

End Mock.

(** ** The client of the web front end ([app.py])

    [APIClient] wraps the REST endpoints for the Streamlit pages.  The HTTP
    exchange is the [requests] library's: a request either raises a
    [RequestException] or answers a response with a status line, the final
    URL and a body that decodes as JSON or does not. *)

Module APIClient.

Record http_request : Type := HttpRequest {
  method : string;
  url : string;
  params : list (string * string);
  payload : option json;
  timeout : Z
}.

Record http_response : Type := HttpResponse {
  status_code : Z;
  reason : string;
  final_url : string;
  content : string + json      (* [response.json()]: the error text or the value *)
}.

(** The exceptions that can leave a method of the client. *)
Inductive client_exn : Type :=
| ValueError (msg : string)          (* a body that is not JSON *)
| KeyError (key : string)            (* [data[key]] on a dict without [key] *)
| NotSubscriptable (v : json).       (* [data[key]] on a value that is no dict *)

(** [str(n)] for an [int]. *)
Definition str_of_int (n : Z) : string := NilZero.string_of_int (Z.to_int n).

(** [response.raise_for_status()]: the text of the [HTTPError] raised for a
    status from 400 to 599, and nothing for any other status. *)
Definition raise_for_status (resp : http_response) : option string :=
  if (400 <=? status_code resp) && (status_code resp <? 500)
  then Some (str_of_int (status_code resp) +:+ " Client Error: " +:+ reason resp
             +:+ " for url: " +:+ final_url resp)
  else if (500 <=? status_code resp) && (status_code resp <? 600)
  then Some (str_of_int (status_code resp) +:+ " Server Error: " +:+ reason resp
             +:+ " for url: " +:+ final_url resp)
  else None.

Definition succeeded (v : json) : dict := [("success", JBool true); ("data", v)].

Definition failed (err : string) : dict := [("success", JBool false); ("error", JStr err)].

(** The body every wrapper shares once the request is sent:
    [response.raise_for_status()], then
    [return {"success": True, "data": response.json()}], any exception [e]
    being turned into [{"success": False, "error": str(e)}]. *)
Definition guarded (answer : string + http_response) : dict :=
  match answer with
  | inl err => failed err
  | inr resp =>
      match raise_for_status resp with
      | Some err => failed err
      | None =>
          match content resp with
          | inl err => failed err
          | inr v => succeeded v
          end
      end
  end.

Section Client.

(** [requests.request]: the exception text or the response. *)
Variable requests : http_request → string + http_response.

(** Whether the error of a body that is not JSON is a [RequestException],
    as it is from requests 2.27 on, or a plain [ValueError]. *)
Variable json_error_is_request_exception : bool.

(** [str(v)] for a decoded value that is no string. *)
Variable py_str : json → string.

(** [self.base_url]; [self.timeout] is 30. *)
Variable base_url : string.

Definition self_timeout : Z := 30.

(** What an f-string renders a decoded value as. *)
Definition format (v : json) : string :=
  match v with
  | JStr s => s
  | _ => py_str v
  end.

Definition health_check : client_exn + bool * string :=
  match requests {| method := "GET"; url := base_url +:+ "/health"; params := [];
                    payload := None; timeout := 10 |} with
  | inl err => inr (false, "❌ Connection failed: " +:+ err)
  | inr resp =>
      if status_code resp =? 200 then
        match content resp with
        | inl err =>
            if json_error_is_request_exception
            then inr (false, "❌ Connection failed: " +:+ err)
            else inl (ValueError err)
        | inr (JDict data) =>
            match dict_get "status" data with
            | Some v => inr (true, "✅ Connected - Status: " +:+ format v)
            | None => inl (KeyError "status")
            end
        | inr v => inl (NotSubscriptable v)
        end
      else inr (false, "❌ Error: " +:+ str_of_int (status_code resp))
  end.

Definition get_tasks (status_filter : option string) : dict :=
  guarded (requests
    {| method := "GET"; url := base_url +:+ "/api/v1/tasks";
       params := if truthy_opt status_filter
                 then [("status_filter", default "" status_filter)] else [];
       payload := None; timeout := self_timeout |}).

Definition create_task (task_data : dict) : dict :=
  guarded (requests
    {| method := "POST"; url := base_url +:+ "/api/v1/tasks"; params := [];
       payload := Some (JDict task_data); timeout := self_timeout |}).

Definition update_task (name : string) (update_data : dict) : dict :=
  guarded (requests
    {| method := "PUT"; url := base_url +:+ "/api/v1/tasks/" +:+ name; params := [];
       payload := Some (JDict update_data); timeout := self_timeout |}).

Definition delete_task (name : string) : dict :=
  guarded (requests
    {| method := "DELETE"; url := base_url +:+ "/api/v1/tasks/" +:+ name;
       params := []; payload := None; timeout := self_timeout |}).

Definition send_message (message session_id : string) : dict :=
  guarded (requests
    {| method := "POST"; url := base_url +:+ "/api/v1/message"; params := [];
       payload := Some (JDict [("message", JStr message);
                               ("session_id", JStr session_id)]);
       timeout := self_timeout |}).

Definition get_stats : dict :=
  guarded (requests
    {| method := "GET"; url := base_url +:+ "/api/v1/stats"; params := [];
       payload := None; timeout := self_timeout |}).

End Client.

End APIClient.

Section Handlers.

(** The external n8n agent: what it answers to a call, given the calls it
    has received so far.  [N8NService] ([app/services/n8n_service.py]) posts
    the message to the webhook and returns the decoded JSON body, or raises. *)
Variable n8n : list call → call → reply.

(** [N8NService.test_connection], the reachability probe. *)
Variable n8n_probe : list call → string + bool.

(** Whether [CacheService.get] drops an entry it finds expired, which the
    specification leaves to the implementation. *)
Variable evict_stale : bool.

(** *** [cache_service]

    [CacheService] is defined in [app/services/cache_service.py], which is
    not among the sources at hand; its four operations follow the contract
    the specification gives for the cache store. *)

(** Modelled from the spec: [CacheService.set(key, value, ttl)] stores
    [value] under [key] with [expires_at = now + ttl], over any earlier
    entry for [key]. *)
Definition cache_set (key : string) (v : json) (ttl : Z) : M unit :=
  fun w =>
    (inr tt,
     set_cache (insert key (CacheEntry v (clock w + timedelta_seconds ttl))) w).

(** Modelled from the spec: what [CacheService.get(key)] answers, the stored
    value if [key] is present and [now < expires_at], and Python's [None],
    that is [JNull], otherwise. *)
Definition fresh_value (key : string) (w : world) : json :=
  match cache w !! key with
  | Some e => if clock w <? expires_at e then value e else JNull
  | None => JNull
  end.

(** Modelled from the spec: [CacheService.get(key)]; it never raises, and
    may drop the entry it finds expired. *)
Definition cache_get (key : string) : M json :=
  fun w =>
    match cache w !! key with
    | Some e =>
        if clock w <? expires_at e then (inr (value e), w)
        else (inr JNull, if evict_stale then set_cache (delete key) w else w)
    | None => (inr JNull, w)
    end.

(** Modelled from the spec: [CacheService.delete(key)] removes the entry if
    present, and is silent if absent. *)
Definition cache_delete (key : string) : M unit :=
  fun w => (inr tt, set_cache (delete key) w).

(** Modelled from the spec: [CacheService.clear()] removes every entry. *)
Definition cache_clear : M unit :=
  fun w => (inr tt, set_cache (fun _ => ∅) w).

(** *** [n8n_service]

    [await n8n_service.send_message(message, session_id)]: the call is
    logged, the clock advances by the latency of the answer, and the answer
    is returned or raised. *)
Definition n8n_send_message (msg : string) (session : option string) : M dict :=
  fun w =>
    let c := Call msg session in
    let r := n8n (sent w) c in
    let w' := {| cache := cache w;
                 clock := clock w + Z.of_N (latency r);
                 sent := sent w ++ [c] |} in
    match outcome r with
    | inl err => (inl (RemoteError err), w')
    | inr body => (inr body, w')
    end.

(** *** GET /api/v1/tasks *)

Definition list_message (status_filter : option string) : string :=
  if truthy_opt status_filter
  then "Show me all tasks with status " +:+ default "" status_filter
  else "Show me all tasks".

Definition get_tasks (status_filter : option string) (use_cache : bool)
    : M TaskListResponse :=
  try_except
    (do tasks <-
       (if use_cache then
          do cached_tasks <- cache_get "all_tasks";
          if truthy cached_tasks then ret cached_tasks
          else
            do response <- n8n_send_message (list_message status_filter) None;
            let tasks := dict_get_default "tasks" (JList []) response in
            do _ <- cache_set "all_tasks" tasks 60;
            ret tasks
        else
          do response <- n8n_send_message (list_message status_filter) None;
          ret (dict_get_default "tasks" (JList []) response));
     do n <- lift (py_len tasks);
     do now <- utcnow;
     ret {| tasks := tasks; count := n; list_timestamp := now |})
    (fun e =>
       raise (HTTPException HTTP_500_INTERNAL_SERVER_ERROR
                ("Failed to fetch tasks: " +:+ exn_str e))).

(** *** POST /api/v1/tasks *)

(** An optional clause of the message: present when the field is truthy. *)
Definition clause (before : string) (o : option string) (after : string) : string :=
  if truthy_opt o then before +:+ default "" o +:+ after else "".

Definition create_message (task : TaskCreate) : string :=
  let message := "Create a new task called '" +:+ task_name task +:+ "'" in
  let message := message +:+ clause " with status '" (status task) "'" in
  let message := message +:+ clause " and description '" (description task) "'" in
  let message := message +:+ clause " with deadline '" (deadline task) "'" in
  message.

Definition create_task (task : TaskCreate) : M TaskResponse :=
  try_except
    (do response <- n8n_send_message (create_message task) None;
     do _ <- cache_delete "all_tasks";
     do now <- utcnow;
     ret {| success := true;
            message := "Task '" +:+ task_name task +:+ "' created successfully";
            data := TaskCreate_dict task;
            task_timestamp := now |})
    (fun e =>
       raise (HTTPException HTTP_500_INTERNAL_SERVER_ERROR
                ("Failed to create task: " +:+ exn_str e))).

(** *** PUT /api/v1/tasks/{task_name} *)

(** [updates], the list the handler appends to. *)
Definition update_clauses (task_update : TaskUpdate) : list string :=
  (if truthy_opt (new_status task_update)
   then ["status to '" +:+ default "" (new_status task_update) +:+ "'"] else [])
  ++ (if truthy_opt (new_description task_update)
      then ["description to '" +:+ default "" (new_description task_update) +:+ "'"]
      else [])
  ++ (if truthy_opt (new_deadline task_update)
      then ["deadline to '" +:+ default "" (new_deadline task_update) +:+ "'"]
      else []).

Definition update_message (name : string) (updates : list string) : string :=
  ("Update the task '" +:+ name +:+ "'") +:+ " - change " +:+ join ", " updates.

Definition update_task (name : string) (task_update : TaskUpdate)
    : M TaskResponse :=
  try_except
    (let updates := update_clauses task_update in
     do _ <- (match updates with
              | [] => raise (HTTPException HTTP_400_BAD_REQUEST
                               "No fields to update provided")
              | _ => ret tt
              end);
     do response <- n8n_send_message (update_message name updates) None;
     do _ <- cache_delete "all_tasks";
     do now <- utcnow;
     ret {| success := true;
            message := "Task '" +:+ name +:+ "' updated successfully";
            data := ("task_name", JStr name) :: TaskUpdate_dict_exclude_none task_update;
            task_timestamp := now |})
    (fun e =>
       match e with
       | HTTPException _ _ => raise e
       | _ => raise (HTTPException HTTP_500_INTERNAL_SERVER_ERROR
                       ("Failed to update task: " +:+ exn_str e))
       end).

(** *** DELETE /api/v1/tasks/{task_name} *)

Definition delete_message (name : string) : string :=
  "Delete the task '" +:+ name +:+ "' - yes, I'm sure".

Definition delete_task (name : string) : M TaskResponse :=
  try_except
    (do response <- n8n_send_message (delete_message name) None;
     do _ <- cache_delete "all_tasks";
     do now <- utcnow;
     ret {| success := true;
            message := "Task '" +:+ name +:+ "' deleted successfully";
            data := [("task_name", JStr name)];
            task_timestamp := now |})
    (fun e =>
       raise (HTTPException HTTP_500_INTERNAL_SERVER_ERROR
                ("Failed to delete task: " +:+ exn_str e))).

(** *** POST /api/v1/message *)

Definition action_keywords : list string :=
  ["create"; "update"; "delete"; "add"; "remove"; "change"].

(** [any(keyword in text.lower() for keyword in action_keywords)] *)
Definition mentions_action (text : string) : bool :=
  existsb (fun keyword => str_in keyword (lower text)) action_keywords.

Definition send_message (message_request : MessageRequest) : M MessageResponse :=
  try_except
    (do response <- n8n_send_message (text message_request)
                                     (session_id message_request);
     do _ <- (if mentions_action (text message_request)
              then cache_delete "all_tasks" else ret tt);
     do now <- utcnow;
     ret {| response := response; message_timestamp := now |})
    (fun e =>
       raise (HTTPException HTTP_500_INTERNAL_SERVER_ERROR
                ("Failed to process message: " +:+ exn_str e))).

(** *** GET /api/v1/stats *)

(** [sum(1 for t in items if t.get("status") == wanted)]: the first item
    without a [get] method raises. *)
Fixpoint count_status (wanted : string) (items : list json) : exn + nat :=
  match items with
  | [] => inr 0%nat
  | t :: rest =>
      match py_get t "status" with
      | inl e => inl e
      | inr st =>
          match count_status wanted rest with
          | inl e => inl e
          | inr n => inr (if eq_str st wanted then S n else n)
          end
      end
  end.

Definition sum_status (wanted : string) (tasks : json) : M nat :=
  do items <- lift (py_iter tasks);
  lift (count_status wanted items).

Definition get_task_stats : M Stats :=
  try_except
    (do response <- n8n_send_message "Show me all tasks" None;
     let tasks := dict_get_default "tasks" (JList []) response in
     do total <- lift (py_len tasks);
     do todo <- sum_status "TODO" tasks;
     do in_progress <- sum_status "IN PROGRESS" tasks;
     do done <- sum_status "DONE" tasks;
     do now <- utcnow;
     let rate :=
       if (0 <? total)%nat
       then py_round (float_mul (int_truediv (Z.of_nat done) (Z.of_nat total))
                                (float_of_Z 100)) 2
       else S754_zero false in
     ret {| total_tasks := total;
            by_status := {| TODO := todo; IN_PROGRESS := in_progress; DONE := done |};
            completion_rate := rate;
            stats_timestamp := now |})
    (fun e =>
       raise (HTTPException HTTP_500_INTERNAL_SERVER_ERROR
                ("Failed to fetch statistics: " +:+ exn_str e))).

(** *** GET /health, GET / and the lifespan *)

Definition n8n_test_connection : M bool :=
  fun w =>
    match n8n_probe (sent w) with
    | inl err => (inl (RemoteError err), w)
    | inr connected => (inr connected, w)
    end.

Definition health_check : M HealthResponse :=
  try_except
    (do n8n_connected <- n8n_test_connection;
     do now <- utcnow;
     ret {| health_status := if n8n_connected then "healthy" else "degraded";
            health_timestamp := now;
            version := "1.0.0";
            services := [("n8n", if n8n_connected then "connected" else "disconnected");
                         ("cache", "active")] |})
    (fun e =>
       do now <- utcnow;
       ret {| health_status := "unhealthy";
              health_timestamp := now;
              version := "1.0.0";
              services := [("n8n", "error"); ("cache", "active")] |}).

Definition root : M (list (string * string)) :=
  ret [("message", "Task Manager API"); ("version", "1.0.0");
       ("docs", "/docs"); ("health", "/health")].

(** The cleanup of [lifespan], run once at shutdown. *)
Definition lifespan_shutdown : M unit := cache_clear.

(** *** Request validation *)

(** Modelled from the spec: the validation of the request model [TaskCreate]
    ([app/models.py], not among the sources at hand): [task_name] is
    required and not empty, [status] defaults to TODO.  FastAPI validates
    the body against the model and answers 422 without entering the handler
    when the body is rejected. *)
Definition TaskCreate_validate (body : TaskCreate) : exn + TaskCreate :=
  if String.eqb (task_name body) ""
  then inl (RequestValidationError "task_name")
  else inr {| task_name := task_name body;
              status := Some (default "TODO" (status body));
              description := description body;
              deadline := deadline body |}.

Definition post_tasks (body : TaskCreate) : M TaskResponse :=
  do task <- lift (TaskCreate_validate body);
  create_task task.

Definition mutate (m : mutation) : M TaskResponse :=
  match m with
  | Create task => create_task task
  | Update name task_update => update_task name task_update
  | Delete name => delete_task name
  end.

(** *** Requests in sequence *)

Definition handle (r : request) (w : world) : world :=
  match r with
  | GetTasks status_filter use_cache => snd (get_tasks status_filter use_cache w)
  | PostTasks body => snd (post_tasks body w)
  | PutTask name task_update => snd (update_task name task_update w)
  | DeleteTask name => snd (delete_task name w)
  | PostMessage message_request => snd (send_message message_request w)
  | GetStats => snd (get_task_stats w)
  | GetHealth => snd (health_check w)
  | GetRoot => snd (root w)
  end.

(** Time passing between two requests. *)
Definition elapse (d : N) (w : world) : world :=
  {| cache := cache w; clock := clock w + Z.of_N d; sent := sent w |}.

Definition occur (e : event) (w : world) : world :=
  match e with
  | Request r => handle r w
  | Elapse d => elapse d w
  end.

Definition serve (es : list event) (w : world) : world :=
  fold_left (fun w e => occur e w) es w.

(** *** Derived notions used to state the results *)

(** The world after a gateway call. *)
Definition after_call (c : call) (w : world) : world :=
  {| cache := cache w;
     clock := clock w + Z.of_N (latency (n8n (sent w) c));
     sent := sent w ++ [c] |}.

(** The list handler, once the cache is out of the way: the gateway is asked
    and the answer is stored when [store] is set. *)
Definition fetch_tasks (status_filter : option string) (store : bool) (w : world)
    : (exn + TaskListResponse) * world :=
  let c := Call (list_message status_filter) None in
  let w1 := after_call c w in
  match outcome (n8n (sent w) c) with
  | inl err =>
      (inl (HTTPException 500 ("Failed to fetch tasks: " +:+ err)), w1)
  | inr body =>
      let tasks := dict_get_default "tasks" (JList []) body in
      let w2 := if store
                then set_cache (insert "all_tasks"
                                  (CacheEntry tasks (clock w1 + timedelta_seconds 60))) w1
                else w1 in
      match py_len tasks with
      | inl e => (inl (HTTPException 500 ("Failed to fetch tasks: " +:+ exn_str e)), w2)
      | inr n => (inr {| tasks := tasks; count := n; list_timestamp := clock w1 |}, w2)
      end
  end.

(** Tasks counted by the exact value of their status. *)
Definition has_status (wanted : string) (t : dict) : bool :=
  eq_str (dict_get "status" t) wanted.

Definition tally (wanted : string) (ts : list dict) : nat :=
  length (List.filter (has_status wanted) ts).

(** Tasks whose status is none of the three counted. *)
Definition unclassified (t : dict) : bool :=
  negb (has_status "TODO" t || has_status "IN PROGRESS" t || has_status "DONE" t).

(** The exception a computation ended with, if any. *)
Definition raised {A} (x : (exn + A) * world) : option exn :=
  match fst x with
  | inl e => Some e
  | inr _ => None
  end.

(** The exception a request is answered with, if any. *)
Definition failure (r : request) (w : world) : option exn :=
  match r with
  | GetTasks status_filter use_cache => raised (get_tasks status_filter use_cache w)
  | PostTasks body => raised (post_tasks body w)
  | PutTask name task_update => raised (update_task name task_update w)
  | DeleteTask name => raised (delete_task name w)
  | PostMessage message_request => raised (send_message message_request w)
  | GetStats => raised (get_task_stats w)
  | GetHealth => raised (health_check w)
  | GetRoot => raised (root w)
  end.

(** The same world with another cache. *)
Definition with_cache (c : gmap string cache_entry) (w : world) : world :=
  set_cache (fun _ => c) w.

(** A field that is absent or the empty string. *)
Definition blank (o : option string) : Prop := o = None ∨ o = Some "".

(** Unfolds the plumbing of [M]. *)
Ltac step_m :=
  unfold try_except, bind, ret, raise, lift, utcnow, cache_set, cache_delete,
    cache_clear; cbn [fst snd].

(** ** Auxiliary facts *)

Lemma append_assoc (a b c : string) : (a +:+ b) +:+ c = a +:+ (b +:+ c).
Proof.
  induction a as [|ch a IH]; [reflexivity|].
  change (String ch ((a +:+ b) +:+ c) = String ch (a +:+ (b +:+ c))).
  now rewrite IH.
Qed.

Lemma clause_opt (before after : string) (o : option string) :
  clause before o after = Template.opt o (fun v => before +:+ v +:+ after).
Proof. destruct o as [[|c s]|]; reflexivity. Qed.

Lemma list_message_template (status_filter : option string) :
  list_message status_filter = Template.list_query status_filter.
Proof. destruct status_filter as [[|c s]|]; reflexivity. Qed.

Lemma create_message_template (task : TaskCreate) :
  create_message task =
  Template.create (task_name task) (status task) (description task) (deadline task).
Proof.
  unfold create_message, Template.create. cbv zeta.
  rewrite !clause_opt, !append_assoc. reflexivity.
Qed.

Lemma update_clauses_template (task_update : TaskUpdate) :
  update_clauses task_update =
  Template.changes (new_status task_update) (new_description task_update)
                   (new_deadline task_update).
Proof.
  destruct task_update as [[[|c1 s1]|] [[|c2 s2]|] [[|c3 s3]|]]; reflexivity.
Qed.

Lemma update_message_template (name : string) (task_update : TaskUpdate) :
  update_message name (update_clauses task_update) =
  Template.update name (new_status task_update) (new_description task_update)
                  (new_deadline task_update).
Proof.
  unfold update_message, Template.update.
  rewrite update_clauses_template, !append_assoc. reflexivity.
Qed.

Lemma n8n_send_message_eq (msg : string) (session : option string) (w : world) :
  n8n_send_message msg session w =
  (match outcome (n8n (sent w) (Call msg session)) with
   | inl err => inl (RemoteError err)
   | inr body => inr body
   end, after_call (Call msg session) w).
Proof.
  unfold n8n_send_message, after_call.
  destruct (outcome _); reflexivity.
Qed.

Lemma cache_get_fst (key : string) (w : world) :
  fst (cache_get key w) = inr (fresh_value key w).
Proof.
  unfold cache_get, fresh_value.
  destruct (cache w !! key) as [e|]; [|reflexivity].
  destruct (clock w <? expires_at e); reflexivity.
Qed.

(** The world [cache_service.get] leaves: the entry may be gone if it was stale. *)
Lemma cache_get_snd (key : string) (w : world) :
  snd (cache_get key w) = w ∨
  (fresh_value key w = JNull ∧ snd (cache_get key w) = set_cache (delete key) w).
Proof.
  unfold cache_get, fresh_value.
  destruct (cache w !! key) as [e|]; [|now left].
  destruct (clock w <? expires_at e); [now left|].
  destruct evict_stale; [now right|now left].
Qed.

Lemma cache_get_hit (key : string) (w : world) :
  truthy (fresh_value key w) = true →
  cache_get key w = (inr (fresh_value key w), w).
Proof.
  unfold cache_get, fresh_value.
  destruct (cache w !! key) as [e|]; [|discriminate].
  destruct (clock w <? expires_at e); [reflexivity|discriminate].
Qed.

Lemma cache_get_clock_sent (key : string) (w : world) :
  clock (snd (cache_get key w)) = clock w ∧ sent (snd (cache_get key w)) = sent w.
Proof. destruct (cache_get_snd key w) as [->|[_ ->]]; now split. Qed.

Lemma get_tasks_no_cache (status_filter : option string) (w : world) :
  get_tasks status_filter false w = fetch_tasks status_filter false w.
Proof.
  unfold get_tasks, fetch_tasks. step_m. rewrite n8n_send_message_eq.
  destruct (outcome _) as [err|body]; [reflexivity|].
  destruct (py_len _); reflexivity.
Qed.

Lemma get_tasks_miss (status_filter : option string) (w : world) :
  truthy (fresh_value "all_tasks" w) = false →
  get_tasks status_filter true w =
  fetch_tasks status_filter true (snd (cache_get "all_tasks" w)).
Proof.
  intros Hmiss. unfold get_tasks, fetch_tasks. step_m.
  pose proof (cache_get_fst "all_tasks" w) as Hfst.
  destruct (cache_get "all_tasks" w) as [r w0]; cbn [fst snd] in *; subst r.
  rewrite Hmiss, n8n_send_message_eq.
  destruct (outcome _) as [err|body]; [reflexivity|].
  cbn [fst snd]. destruct (py_len _); reflexivity.
Qed.

Lemma get_tasks_hit (status_filter : option string) (w : world) :
  truthy (fresh_value "all_tasks" w) = true →
  get_tasks status_filter true w =
  (match py_len (fresh_value "all_tasks" w) with
   | inl e => inl (HTTPException 500 ("Failed to fetch tasks: " +:+ exn_str e))
   | inr n => inr {| tasks := fresh_value "all_tasks" w; count := n;
                     list_timestamp := clock w |}
   end, w).
Proof.
  intros Hhit. unfold get_tasks. step_m.
  rewrite (cache_get_hit _ _ Hhit), Hhit.
  destruct (py_len _); reflexivity.
Qed.

Lemma create_task_eq (task : TaskCreate) (w : world) :
  create_task task w =
  let c := Call (create_message task) None in
  let w1 := after_call c w in
  match outcome (n8n (sent w) c) with
  | inl err => (inl (HTTPException 500 ("Failed to create task: " +:+ err)), w1)
  | inr _ =>
      (inr {| success := true;
              message := "Task '" +:+ task_name task +:+ "' created successfully";
              data := TaskCreate_dict task;
              task_timestamp := clock w1 |},
       set_cache (delete "all_tasks") w1)
  end.
Proof.
  unfold create_task. step_m. rewrite n8n_send_message_eq.
  destruct (outcome _); reflexivity.
Qed.

Lemma update_task_eq (name : string) (task_update : TaskUpdate) (w : world) :
  update_task name task_update w =
  match update_clauses task_update with
  | [] => (inl (HTTPException 400 "No fields to update provided"), w)
  | updates =>
      let c := Call (update_message name updates) None in
      let w1 := after_call c w in
      match outcome (n8n (sent w) c) with
      | inl err => (inl (HTTPException 500 ("Failed to update task: " +:+ err)), w1)
      | inr _ =>
          (inr {| success := true;
                  message := "Task '" +:+ name +:+ "' updated successfully";
                  data := ("task_name", JStr name)
                          :: TaskUpdate_dict_exclude_none task_update;
                  task_timestamp := clock w1 |},
           set_cache (delete "all_tasks") w1)
      end
  end.
Proof.
  unfold update_task. step_m.
  destruct (update_clauses task_update) as [|u us]; [reflexivity|].
  rewrite n8n_send_message_eq.
  destruct (outcome _); reflexivity.
Qed.

Lemma delete_task_eq (name : string) (w : world) :
  delete_task name w =
  let c := Call (delete_message name) None in
  let w1 := after_call c w in
  match outcome (n8n (sent w) c) with
  | inl err => (inl (HTTPException 500 ("Failed to delete task: " +:+ err)), w1)
  | inr _ =>
      (inr {| success := true;
              message := "Task '" +:+ name +:+ "' deleted successfully";
              data := [("task_name", JStr name)];
              task_timestamp := clock w1 |},
       set_cache (delete "all_tasks") w1)
  end.
Proof.
  unfold delete_task. step_m. rewrite n8n_send_message_eq.
  destruct (outcome _); reflexivity.
Qed.

Lemma send_message_eq (message_request : MessageRequest) (w : world) :
  send_message message_request w =
  let c := Call (text message_request) (session_id message_request) in
  let w1 := after_call c w in
  match outcome (n8n (sent w) c) with
  | inl err => (inl (HTTPException 500 ("Failed to process message: " +:+ err)), w1)
  | inr body =>
      (inr {| response := body; message_timestamp := clock w1 |},
       if mentions_action (text message_request)
       then set_cache (delete "all_tasks") w1 else w1)
  end.
Proof.
  unfold send_message. step_m. rewrite n8n_send_message_eq.
  destruct (outcome _); [reflexivity|].
  destruct (mentions_action _); reflexivity.
Qed.

Lemma fetch_tasks_sent (status_filter : option string) (store : bool) (w : world) :
  sent (snd (fetch_tasks status_filter store w)) =
  sent w ++ [Call (list_message status_filter) None].
Proof.
  unfold fetch_tasks. cbv zeta.
  destruct (outcome _) as [err|body]; [reflexivity|].
  destruct (py_len _), store; reflexivity.
Qed.

Lemma mutate_success (m : mutation) (w : world) (c : call) (body : dict) :
  sent (snd (mutate m w)) = sent w ++ [c] →
  outcome (n8n (sent w) c) = inr body →
  ∃ r, mutate m w = (inr r, set_cache (delete "all_tasks") (after_call c w)).
Proof.
  intros Hsent Hok. destruct m as [task|name task_update|name]; cbn [mutate] in *.
  - rewrite create_task_eq in *. cbv zeta in *.
    destruct (outcome (n8n (sent w) (Call (create_message task) None))) eqn:Hout;
      cbn [snd sent after_call set_cache] in Hsent;
      apply app_inv_head in Hsent; injection Hsent as <-;
      rewrite Hout in Hok; [discriminate|]. eauto.
  - rewrite update_task_eq in *.
    destruct (update_clauses task_update) as [|u us].
    + cbn [snd] in Hsent. rewrite <- (app_nil_r (sent w)) in Hsent at 1.
      apply app_inv_head in Hsent. discriminate.
    + cbv zeta in *.
      destruct (outcome (n8n (sent w) (Call (update_message name (u :: us)) None)))
        eqn:Hout;
        cbn [snd sent after_call set_cache] in Hsent;
        apply app_inv_head in Hsent; injection Hsent as <-;
        rewrite Hout in Hok; [discriminate|]. eauto.
  - rewrite delete_task_eq in *. cbv zeta in *.
    destruct (outcome (n8n (sent w) (Call (delete_message name) None))) eqn:Hout;
      cbn [snd sent after_call set_cache] in Hsent;
      apply app_inv_head in Hsent; injection Hsent as <-;
      rewrite Hout in Hok; [discriminate|]. eauto.
Qed.

Lemma fresh_value_deleted (w : world) (d : N) :
  fresh_value "all_tasks" (elapse d (set_cache (delete "all_tasks") w)) = JNull.
Proof.
  unfold fresh_value, elapse, set_cache. cbn [cache clock].
  now rewrite lookup_delete_eq.
Qed.

(** The list handler on a request the cache does not serve. *)
Lemma get_tasks_unserved (status_filter : option string) (use_cache : bool)
    (w : world) :
  (use_cache = true → truthy (fresh_value "all_tasks" w) = false) →
  ∃ w0, clock w0 = clock w ∧ sent w0 = sent w ∧
        (∀ k, k ≠ "all_tasks" → cache w0 !! k = cache w !! k) ∧
        (use_cache = false → w0 = w) ∧
        get_tasks status_filter use_cache w = fetch_tasks status_filter use_cache w0.
Proof.
  intros Hmiss. destruct use_cache.
  - exists (snd (cache_get "all_tasks" w)).
    destruct (cache_get_clock_sent "all_tasks" w) as [Hc Hs].
    split; [exact Hc|]. split; [exact Hs|]. split; [|split].
    + intros k Hk.
      destruct (cache_get_snd "all_tasks" w) as [->|[_ ->]]; [reflexivity|].
      cbn [set_cache cache]. now apply lookup_delete_ne.
    + discriminate.
    + apply get_tasks_miss. now apply Hmiss.
  - exists w. do 4 (split; [reflexivity|]). apply get_tasks_no_cache.
Qed.

Lemma get_tasks_unserved_success
    (status_filter : option string) (use_cache : bool) (w : world)
    (body : dict) (ts : list json) :
  (use_cache = true → truthy (fresh_value "all_tasks" w) = false) →
  let c := Call (list_message status_filter) None in
  outcome (n8n (sent w) c) = inr body →
  dict_get_default "tasks" (JList []) body = JList ts →
  let now := clock w + Z.of_N (latency (n8n (sent w) c)) in
  let w' := snd (get_tasks status_filter use_cache w) in
  fst (get_tasks status_filter use_cache w) =
    inr {| tasks := JList ts; count := length ts; list_timestamp := now |} ∧
  clock w' = now ∧
  (use_cache = true →
     cache w' !! "all_tasks" =
     Some (CacheEntry (JList ts) (now + timedelta_seconds 60))) ∧
  (use_cache = false → cache w' = cache w).
Proof.
  intros Hmiss. cbv zeta.
  destruct (get_tasks_unserved status_filter use_cache w Hmiss)
    as (w0 & Hc & Hs & _ & Hw0 & ->).
  intros Hok Hts. unfold fetch_tasks. cbv zeta.
  rewrite Hs, Hok, Hts. cbn [py_len fst snd].
  unfold after_call. rewrite Hs, Hc.
  split; [reflexivity|]. split; [now destruct use_cache|]. split.
  - intros ->. cbn [set_cache cache clock]. apply lookup_insert_eq.
  - intros ->. now rewrite (Hw0 eq_refl).
Qed.

Lemma get_task_stats_snd (w : world) :
  snd (get_task_stats w) = after_call (Call "Show me all tasks" None) w.
Proof.
  unfold get_task_stats, sum_status. step_m. rewrite n8n_send_message_eq.
  destruct (outcome _) as [err|body]; [reflexivity|].
  destruct (py_len _); [reflexivity|].
  destruct (py_iter _) as [e|items]; [reflexivity|].
  do 3 (destruct (count_status _ items); [reflexivity|]).
  reflexivity.
Qed.

Lemma has_status_exact (wanted : string) (t : dict) :
  has_status wanted t = true ↔ dict_get "status" t = Some (JStr wanted).
Proof.
  unfold has_status, eq_str.
  destruct (dict_get "status" t) as [[| | | |s| |]|]; try (split; discriminate).
  rewrite String.eqb_eq. split; [now intros ->|now intros [= ->]].
Qed.

Lemma count_status_dicts (wanted : string) (ts : list dict) :
  count_status wanted (map JDict ts) = inr (tally wanted ts).
Proof.
  unfold tally. induction ts as [|t ts IH]; [reflexivity|].
  cbn [map count_status py_get List.filter]. rewrite IH.
  fold (has_status wanted t).
  now destruct (has_status wanted t).
Qed.

(** The statistics handler on a reply whose tasks are a list of objects. *)
Lemma get_task_stats_dicts (w : world) (body : dict) (ts : list dict) :
  let c := Call "Show me all tasks" None in
  outcome (n8n (sent w) c) = inr body →
  dict_get_default "tasks" (JList []) body = JList (map JDict ts) →
  fst (get_task_stats w) =
  inr {| total_tasks := length ts;
         by_status := {| TODO := tally "TODO" ts;
                         IN_PROGRESS := tally "IN PROGRESS" ts;
                         DONE := tally "DONE" ts |};
         completion_rate :=
           if (0 <? length ts)%nat
           then py_round (float_mul (int_truediv (Z.of_nat (tally "DONE" ts))
                                                 (Z.of_nat (length ts)))
                                    (float_of_Z 100)) 2
           else S754_zero false;
         stats_timestamp := clock w + Z.of_N (latency (n8n (sent w) c)) |}.
Proof.
  cbv zeta. intros Hok Hts.
  unfold get_task_stats, sum_status. step_m.
  rewrite n8n_send_message_eq, Hok, Hts.
  cbn [py_len py_iter]. rewrite !count_status_dicts, length_map.
  reflexivity.
Qed.

Lemma dict_get_default_absent (key : string) (v : json) (d : dict) :
  dict_get key d = None → dict_get_default key v d = v.
Proof. unfold dict_get_default. now intros ->. Qed.

Lemma dict_get_default_present (key : string) (v v' : json) (d : dict) :
  dict_get key d = Some v' → dict_get_default key v d = v'.
Proof. unfold dict_get_default. now intros ->. Qed.

Lemma fetch_tasks_other_keys (status_filter : option string) (store : bool)
    (w : world) (k : string) :
  k ≠ "all_tasks" →
  cache (snd (fetch_tasks status_filter store w)) !! k = cache w !! k.
Proof.
  intros Hk. unfold fetch_tasks. cbv zeta.
  destruct (outcome _) as [err|body]; [reflexivity|].
  destruct (py_len _), store; cbn [snd set_cache cache after_call];
    try reflexivity; now apply lookup_insert_ne.
Qed.

Lemma get_tasks_other_keys (status_filter : option string) (use_cache : bool)
    (w : world) (k : string) :
  k ≠ "all_tasks" →
  cache (snd (get_tasks status_filter use_cache w)) !! k = cache w !! k.
Proof.
  intros Hk.
  destruct (bool_decide (use_cache = true → truthy (fresh_value "all_tasks" w) = false))
    eqn:Hserved.
  - apply bool_decide_eq_true in Hserved.
    destruct (get_tasks_unserved status_filter use_cache w Hserved)
      as (w0 & _ & _ & Hw0 & _ & ->).
    now rewrite fetch_tasks_other_keys, Hw0.
  - apply bool_decide_eq_false in Hserved.
    destruct use_cache; [|now exfalso; apply Hserved].
    destruct (truthy (fresh_value "all_tasks" w)) eqn:Hc; [|now exfalso; apply Hserved].
    now rewrite (get_tasks_hit _ _ Hc).
Qed.

Lemma handle_other_keys (r : request) (w : world) (k : string) :
  k ≠ "all_tasks" → cache (handle r w) !! k = cache w !! k.
Proof.
  intros Hk. destruct r as [sf uc|body|name u|name|mr| | |]; cbn [handle].
  - now apply get_tasks_other_keys.
  - unfold post_tasks. step_m.
    destruct (TaskCreate_validate body) as [e|task]; [reflexivity|].
    rewrite create_task_eq. cbv zeta.
    destruct (outcome _); cbn [snd set_cache cache after_call];
      [reflexivity|now apply lookup_delete_ne].
  - rewrite update_task_eq.
    destruct (update_clauses u); [reflexivity|]. cbv zeta.
    destruct (outcome _); cbn [snd set_cache cache after_call];
      [reflexivity|now apply lookup_delete_ne].
  - rewrite delete_task_eq. cbv zeta.
    destruct (outcome _); cbn [snd set_cache cache after_call];
      [reflexivity|now apply lookup_delete_ne].
  - rewrite send_message_eq. cbv zeta.
    destruct (outcome _); [reflexivity|].
    destruct (mentions_action _); cbn [snd set_cache cache after_call];
      [now apply lookup_delete_ne|reflexivity].
  - now rewrite get_task_stats_snd.
  - unfold health_check, n8n_test_connection. step_m.
    destruct (n8n_probe (sent w)); reflexivity.
  - reflexivity.
Qed.

Lemma serve_other_keys (es : list event) (w : world) (k : string) :
  k ≠ "all_tasks" → cache (serve es w) !! k = cache w !! k.
Proof.
  intros Hk. revert w. unfold serve.
  induction es as [|e es IH]; intros w; [reflexivity|].
  cbn [fold_left]. rewrite IH.
  destruct e as [r|d]; [now apply handle_other_keys|reflexivity].
Qed.

(** ** The claims *)

(** C1. A create, update or delete request whose gateway call succeeds
    removes the cache entry [all_tasks] before it returns; a later list
    request with [use_cache] set then asks the gateway, and the tasks it
    answers are those of the gateway's reply, not a cached snapshot. *)
Theorem mutation_invalidates_list_cache
    (m : mutation) (w : world) (c : call) (body : dict) :
  sent (snd (mutate m w)) = sent w ++ [c] →
  outcome (n8n (sent w) c) = inr body →
  let w1 := snd (mutate m w) in
  (∃ r, fst (mutate m w) = inr r) ∧
  cache w1 !! "all_tasks" = None ∧
  ∀ (d : N) (status_filter : option string),
    let w2 := elapse d w1 in
    let c2 := Call (list_message status_filter) None in
    sent (snd (get_tasks status_filter true w2)) = sent w2 ++ [c2] ∧
    ∀ resp, fst (get_tasks status_filter true w2) = inr resp →
      ∃ body2, outcome (n8n (sent w2) c2) = inr body2 ∧
               tasks resp = dict_get_default "tasks" (JList []) body2.
Proof.
  intros Hsent Hok.
  destruct (mutate_success m w c body Hsent Hok) as [r Hr].
  rewrite Hr. cbn [fst snd]. split; [eauto|]. split.
  { cbn [set_cache cache]. apply lookup_delete_eq. }
  intros d status_filter.
  set (w1 := set_cache _ _). set (w2 := elapse d w1).
  assert (Hmiss : truthy (fresh_value "all_tasks" w2) = false).
  { unfold w2, w1. now rewrite fresh_value_deleted. }
  rewrite (get_tasks_miss _ _ Hmiss).
  destruct (cache_get_clock_sent "all_tasks" w2) as [_ Hs].
  split.
  - now rewrite fetch_tasks_sent, Hs.
  - intros resp. unfold fetch_tasks. cbv zeta. rewrite Hs.
    destruct (outcome (n8n (sent w2) _)) as [err|body2]; [discriminate|].
    destruct (py_len _); [discriminate|].
    cbn [fst]. intros [= <-]. eauto.
Qed.

(** C3. The handlers touch the cache under the key [all_tasks] alone: a
    request leaves every other key as it was, so a cache that starts empty
    never holds another key; and since the key does not depend on the
    filter, a list request finds the entry an earlier list request stored,
    whatever the two filters are. *)
Theorem single_cache_key :
  (∀ r w k, k ≠ "all_tasks" → cache (handle r w) !! k = cache w !! k) ∧
  (∀ es now, dom (cache (serve es (startup now))) ⊆ {["all_tasks"]}) ∧
  (∀ filter1 filter2 w body t ts (d : N),
     truthy (fresh_value "all_tasks" w) = false →
     outcome (n8n (sent w) (Call (list_message filter1) None)) = inr body →
     dict_get_default "tasks" (JList []) body = JList (t :: ts) →
     Z.of_N d < timedelta_seconds 60 →
     let w1 := elapse d (snd (get_tasks filter1 true w)) in
     get_tasks filter2 true w1 =
     (inr {| tasks := JList (t :: ts); count := length (t :: ts);
             list_timestamp := clock w1 |}, w1)).
Proof.
  split; [exact handle_other_keys|]. split.
  - intros es now k Hin. apply elem_of_dom in Hin as [e He].
    destruct (decide (k = "all_tasks")) as [->|Hk]; [set_solver|].
    rewrite serve_other_keys in He by done. discriminate.
  - intros filter1 filter2 w body t ts d Hmiss Hok Hts Hd. cbv zeta.
    destruct (get_tasks_unserved_success filter1 true w body (t :: ts)
                (fun _ => Hmiss) Hok Hts) as (_ & Hclock & Hstore & _).
    specialize (Hstore eq_refl).
    set (w1 := elapse d _).
    assert (Hfresh : fresh_value "all_tasks" w1 = JList (t :: ts)).
    { unfold fresh_value, w1, elapse. cbn [cache clock].
      rewrite Hstore, Hclock. cbn [expires_at value].
      destruct (Z.ltb_spec (clock w + Z.of_N (latency (n8n (sent w)
                  (Call (list_message filter1) None))) + Z.of_N d)
                 (clock w + Z.of_N (latency (n8n (sent w)
                  (Call (list_message filter1) None))) + timedelta_seconds 60));
        [reflexivity|lia]. }
    rewrite get_tasks_hit; rewrite Hfresh; reflexivity.
Qed.

(** C4, amended. A list request that the cache does not serve calls the
    gateway; when the call succeeds with a task list, the response carries
    that list and its length as count; the list is stored under [all_tasks]
    with a time-to-live of 60 seconds when [use_cache] is set, and the
    cache is left as it was when [use_cache] is not set. *)
Theorem unserved_list_request_fetches
    (status_filter : option string) (use_cache : bool) (w : world) :
  (use_cache = true → truthy (fresh_value "all_tasks" w) = false) →
  let c := Call (list_message status_filter) None in
  let w' := snd (get_tasks status_filter use_cache w) in
  sent w' = sent w ++ [c] ∧
  ∀ body ts,
    outcome (n8n (sent w) c) = inr body →
    dict_get_default "tasks" (JList []) body = JList ts →
    let now := clock w + Z.of_N (latency (n8n (sent w) c)) in
    fst (get_tasks status_filter use_cache w) =
      inr {| tasks := JList ts; count := length ts; list_timestamp := now |} ∧
    (use_cache = true →
       cache w' !! "all_tasks" =
       Some (CacheEntry (JList ts) (now + timedelta_seconds 60))) ∧
    (use_cache = false → cache w' = cache w).
Proof.
  intros Hmiss. cbv zeta. split.
  - destruct (get_tasks_unserved status_filter use_cache w Hmiss)
      as (w0 & _ & Hs & _ & _ & ->).
    now rewrite fetch_tasks_sent, Hs.
  - intros body ts Hok Hts.
    destruct (get_tasks_unserved_success status_filter use_cache w body ts
                Hmiss Hok Hts) as (Hr & _ & Hstore & Hkeep).
    auto.
Qed.

(** C5. A free-form message that is handled successfully deletes the cache
    entry [all_tasks] when its lowercased text contains one of create,
    update, delete, add, remove, change, and leaves the cache as it was
    when it contains none of them. *)
Theorem message_invalidates_on_keyword
    (message_request : MessageRequest) (w : world) (r : MessageResponse) :
  fst (send_message message_request w) = inr r →
  cache (snd (send_message message_request w)) =
  if existsb (fun keyword => str_in keyword (lower (text message_request)))
             ["create"; "update"; "delete"; "add"; "remove"; "change"]
  then delete "all_tasks" (cache w)
  else cache w.
Proof.
  rewrite send_message_eq. cbv zeta.
  destruct (outcome _) as [err|body]; [discriminate|].
  intros _. cbn [snd]. fold action_keywords.
  change (existsb _ action_keywords) with (mentions_action (text message_request)).
  destruct (mentions_action _); reflexivity.
Qed.

(** C6. An update request in which status, description and deadline are
    all absent fails with HTTP 400, "No fields to update provided"; the
    world is left as it was: no gateway call, no cache mutation. *)
Theorem update_without_fields_is_rejected (name : string) (w : world) :
  let task_update :=
    {| new_status := None; new_description := None; new_deadline := None |} in
  update_task name task_update w =
    (inl (HTTPException 400 "No fields to update provided"), w) ∧
  sent (snd (update_task name task_update w)) = sent w ∧
  cache (snd (update_task name task_update w)) = cache w.
Proof. cbv zeta. rewrite update_task_eq. cbn. auto. Qed.

(** C7. A create request with an empty [task_name] is answered 422 by the
    request validation: the handler is not entered, so the gateway is not
    called and the cache is not touched. *)
Theorem create_with_empty_name_is_rejected
    (st descr dl : option string) (w : world) :
  let body := {| task_name := ""; status := st; description := descr;
                 deadline := dl |} in
  (∃ e, post_tasks body w = (inl e, w) ∧ http_status_of e = 422) ∧
  sent (snd (post_tasks body w)) = sent w ∧
  cache (snd (post_tasks body w)) = cache w.
Proof.
  cbv zeta. split; [|split]; [|reflexivity..].
  exists (RequestValidationError "task_name"). split; reflexivity.
Qed.

(** C8. For a task list answered by the gateway, the statistics carry the
    length of the list as [total_tasks], the number of tasks whose status is
    exactly TODO, IN PROGRESS and DONE as [by_status], and as
    [completion_rate] the value round(done / total * 100, 2) when the list
    is not empty and 0.0 when it is; the empty list gives total 0 and rate
    0.0, one task of each status gives total 3 and rate 33.33. *)
Theorem stats_of_task_list (w : world) (body : dict) (ts : list dict) :
  outcome (n8n (sent w) (Call "Show me all tasks" None)) = inr body →
  dict_get "tasks" body = Some (JList (map JDict ts)) →
  ∃ r, fst (get_task_stats w) = inr r ∧
       total_tasks r = length ts ∧
       by_status r = {| TODO := tally "TODO" ts;
                        IN_PROGRESS := tally "IN PROGRESS" ts;
                        DONE := tally "DONE" ts |} ∧
       completion_rate r =
         (if (0 <? length ts)%nat
          then py_round (float_mul (int_truediv (Z.of_nat (tally "DONE" ts))
                                                (Z.of_nat (length ts)))
                                   (float_of_Z 100)) 2
          else S754_zero false) ∧
       (ts = [] → total_tasks r = 0%nat ∧ completion_rate r = S754_zero false) ∧
       (length ts = 3%nat → tally "TODO" ts = 1%nat →
        tally "IN PROGRESS" ts = 1%nat → tally "DONE" ts = 1%nat →
        total_tasks r = 3%nat ∧
        by_status r = {| TODO := 1; IN_PROGRESS := 1; DONE := 1 |} ∧
        completion_rate r = float_literal 3333 2).
Proof.
  intros Hok Hts.
  apply (dict_get_default_present _ (JList [])) in Hts.
  eexists. split; [exact (get_task_stats_dicts w body ts Hok Hts)|].
  cbn [total_tasks by_status completion_rate].
  do 3 (split; [reflexivity|]). split.
  - now intros ->.
  - intros -> -> -> ->. split; [reflexivity|]. split; [reflexivity|].
    vm_compute. reflexivity.
Qed.

(** C9. The messages sent to the gateway are the fixed templates, whatever
    the world the request runs in: a list query that reaches the gateway
    sends "Show me all tasks", followed by " with status ..." when a filter
    is given; create sends "Create a new task called '...'" followed by the
    status, description and deadline clauses in this order; update sends
    "Update the task '...' - change " followed by the clauses
    "<field> to '<value>'" joined by ", " in the order status, description,
    deadline; delete sends "Delete the task '...' - yes, I'm sure". *)
Theorem messages_follow_templates (w : world) :
  (∀ status_filter use_cache,
     sent (snd (get_tasks status_filter use_cache w)) =
     sent w ++
     if use_cache && truthy (fresh_value "all_tasks" w) then []
     else [Call (Template.list_query status_filter) None]) ∧
  (∀ task,
     sent (snd (create_task task w)) =
     sent w ++
     [Call (Template.create (task_name task) (status task) (description task)
                            (deadline task)) None]) ∧
  (∀ name task_update,
     let st := new_status task_update in
     let descr := new_description task_update in
     let dl := new_deadline task_update in
     sent (snd (update_task name task_update w)) =
     sent w ++
     match Template.changes st descr dl with
     | [] => []
     | _ => [Call (Template.update name st descr dl) None]
     end) ∧
  (∀ name,
     sent (snd (delete_task name w)) =
     sent w ++ [Call (Template.delete name) None]).
Proof.
  repeat split.
  - intros status_filter [|]; cbn [andb].
    + destruct (truthy (fresh_value "all_tasks" w)) eqn:Hc.
      * rewrite (get_tasks_hit _ _ Hc). cbn [snd]. now rewrite app_nil_r.
      * rewrite (get_tasks_miss _ _ Hc), fetch_tasks_sent, list_message_template.
        now destruct (cache_get_clock_sent "all_tasks" w) as [_ ->].
    + now rewrite get_tasks_no_cache, fetch_tasks_sent, list_message_template.
  - intros task. rewrite create_task_eq, create_message_template. cbv zeta.
    destruct (outcome _); reflexivity.
  - intros name task_update. cbv zeta.
    rewrite update_task_eq, <- update_message_template, <- update_clauses_template.
    destruct (update_clauses task_update) as [|u us]; cbn [snd].
    + now rewrite app_nil_r.
    + destruct (outcome _); reflexivity.
  - intros name. rewrite delete_task_eq. cbv zeta.
    destruct (outcome _); reflexivity.
Qed.

(** C10. When the gateway call succeeds with a reply that has no [tasks]
    field, the empty list stands in for it: the list endpoint answers
    tasks = [] and count = 0 (and stores the empty list for 60 seconds when
    [use_cache] is set), the statistics answer total 0 and rate 0.0. *)
Theorem missing_tasks_field_is_empty_list
    (status_filter : option string) (use_cache : bool) (w : world) (body : dict) :
  dict_get "tasks" body = None →
  ((use_cache = true → truthy (fresh_value "all_tasks" w) = false) →
   outcome (n8n (sent w) (Call (list_message status_filter) None)) = inr body →
   let w' := snd (get_tasks status_filter use_cache w) in
   fst (get_tasks status_filter use_cache w) =
     inr {| tasks := JList []; count := 0; list_timestamp := clock w' |} ∧
   (use_cache = true →
      cache w' !! "all_tasks" =
      Some (CacheEntry (JList []) (clock w' + timedelta_seconds 60)))) ∧
  (outcome (n8n (sent w) (Call "Show me all tasks" None)) = inr body →
   ∃ r, fst (get_task_stats w) = inr r ∧
        total_tasks r = 0%nat ∧
        by_status r = {| TODO := 0; IN_PROGRESS := 0; DONE := 0 |} ∧
        completion_rate r = S754_zero false).
Proof.
  intros Hno. apply (dict_get_default_absent _ (JList [])) in Hno. split.
  - intros Hmiss Hok. cbv zeta.
    destruct (get_tasks_unserved_success status_filter use_cache w body []
                Hmiss Hok Hno) as (Hr & Hclock & Hstore & _).
    rewrite Hclock. auto.
  - intros Hok. eexists.
    split; [exact (get_task_stats_dicts w body [] Hok Hno)|].
    repeat split.
Qed.

(** ** Further properties of the handlers *)

(** X1. A create, update or delete request whose gateway call fails is answered
    500 with the text of the failure, and the cache is left as it was: the
    entry [all_tasks], if any, stays. *)
Theorem failed_mutation_keeps_cache
    (m : mutation) (w : world) (c : call) (err : string) :
  sent (snd (mutate m w)) = sent w ++ [c] →
  outcome (n8n (sent w) c) = inl err →
  fst (mutate m w) =
    inl (HTTPException 500
           (match m with
            | Create _ => "Failed to create task: "
            | Update _ _ => "Failed to update task: "
            | Delete _ => "Failed to delete task: "
            end +:+ err)) ∧
  cache (snd (mutate m w)) = cache w.
Proof.
  intros Hsent Hfail. destruct m as [task|name task_update|name]; cbn [mutate] in *.
  - rewrite create_task_eq in *. cbv zeta in *.
    destruct (outcome (n8n (sent w) (Call (create_message task) None))) eqn:Hout;
      cbn [snd sent after_call set_cache] in Hsent;
      apply app_inv_head in Hsent; injection Hsent as <-;
      rewrite Hout in Hfail; [|discriminate].
    injection Hfail as ->. now split.
  - rewrite update_task_eq in *.
    destruct (update_clauses task_update) as [|u us].
    + cbn [snd] in Hsent. rewrite <- (app_nil_r (sent w)) in Hsent at 1.
      apply app_inv_head in Hsent. discriminate.
    + cbv zeta in *.
      destruct (outcome (n8n (sent w) (Call (update_message name (u :: us)) None)))
        eqn:Hout;
        cbn [snd sent after_call set_cache] in Hsent;
        apply app_inv_head in Hsent; injection Hsent as <-;
        rewrite Hout in Hfail; [|discriminate].
      injection Hfail as ->. now split.
  - rewrite delete_task_eq in *. cbv zeta in *.
    destruct (outcome (n8n (sent w) (Call (delete_message name) None))) eqn:Hout;
      cbn [snd sent after_call set_cache] in Hsent;
      apply app_inv_head in Hsent; injection Hsent as <-;
      rewrite Hout in Hfail; [|discriminate].
    injection Hfail as ->. now split.
Qed.

(** X2. A free-form message whose gateway call fails is answered 500, and the
    cache is left as it was even when the text names a mutation. *)
Theorem failed_message_keeps_cache
    (message_request : MessageRequest) (w : world) (err : string) :
  outcome (n8n (sent w) (Call (text message_request) (session_id message_request)))
    = inl err →
  fst (send_message message_request w) =
    inl (HTTPException 500 ("Failed to process message: " +:+ err)) ∧
  cache (snd (send_message message_request w)) = cache w.
Proof. intros Hfail. rewrite send_message_eq. cbv zeta. rewrite Hfail. now split. Qed.

(** X3. A list request whose gateway call fails is answered 500 and stores
    nothing: every entry of the cache afterwards was there before. *)
Theorem failed_list_stores_nothing
    (status_filter : option string) (use_cache : bool) (w : world) (err : string) :
  (use_cache = true → truthy (fresh_value "all_tasks" w) = false) →
  outcome (n8n (sent w) (Call (list_message status_filter) None)) = inl err →
  let w' := snd (get_tasks status_filter use_cache w) in
  fst (get_tasks status_filter use_cache w) =
    inl (HTTPException 500 ("Failed to fetch tasks: " +:+ err)) ∧
  ∀ k e, cache w' !! k = Some e → cache w !! k = Some e.
Proof.
  intros Hmiss Hfail. cbv zeta.
  assert (Hw0 : ∃ w0, sent w0 = sent w ∧
                      (∀ k e, cache w0 !! k = Some e → cache w !! k = Some e) ∧
                      get_tasks status_filter use_cache w =
                      fetch_tasks status_filter use_cache w0).
  { destruct use_cache.
    - exists (snd (cache_get "all_tasks" w)).
      destruct (cache_get_clock_sent "all_tasks" w) as [_ Hs].
      split; [exact Hs|]. split; [|now apply get_tasks_miss, Hmiss].
      intros k e. destruct (cache_get_snd "all_tasks" w) as [->|[_ ->]]; [done|].
      cbn [set_cache cache]. intros He. now apply lookup_delete_Some in He.
    - exists w. split; [reflexivity|]. split; [done|apply get_tasks_no_cache]. }
  destruct Hw0 as (w0 & Hs & Hsub & ->).
  unfold fetch_tasks. cbv zeta. rewrite Hs, Hfail. cbn [fst snd after_call cache].
  split; [reflexivity|exact Hsub].
Qed.

(** X6. With [use_cache] unset the list handler neither reads nor writes the
    cache: its answer is the same whatever the cache holds, a fresh entry
    included, and the cache is left as it was. *)
Theorem list_bypass_ignores_cache
    (status_filter : option string) (w : world) (c : gmap string cache_entry) :
  fst (get_tasks status_filter false (with_cache c w)) =
    fst (get_tasks status_filter false w) ∧
  cache (snd (get_tasks status_filter false w)) = cache w.
Proof.
  rewrite !get_tasks_no_cache. unfold fetch_tasks. cbv zeta.
  cbn [with_cache set_cache sent clock after_call].
  destruct (outcome _) as [err|body]; [now split|].
  destruct (py_len _); now split.
Qed.

(** X7. The statistics never use the cache: the answer is the same whatever the
    cache holds, and the cache is left as it was. *)
Theorem stats_ignore_cache (w : world) (c : gmap string cache_entry) :
  fst (get_task_stats (with_cache c w)) = fst (get_task_stats w) ∧
  cache (snd (get_task_stats w)) = cache w.
Proof.
  split; [|now rewrite get_task_stats_snd].
  unfold get_task_stats, sum_status. step_m. rewrite !n8n_send_message_eq.
  cbn [with_cache set_cache sent clock after_call].
  destruct (outcome _) as [err|body]; [reflexivity|].
  destruct (py_len _); [reflexivity|].
  destruct (py_iter _) as [e|items]; [reflexivity|].
  do 3 (destruct (count_status _ items); [reflexivity|]).
  reflexivity.
Qed.

Lemma health_check_eq (w : world) :
  ∃ resp, health_check w = (inr resp, w) ∧
          health_status resp =
            match n8n_probe (sent w) with
            | inr true => "healthy"
            | inr false => "degraded"
            | inl _ => "unhealthy"
            end ∧
          health_timestamp resp = clock w.
Proof.
  unfold health_check, n8n_test_connection. step_m.
  destruct (n8n_probe (sent w)) as [err|[|]]; eexists; repeat split.
Qed.


(** X9. An update is rejected with 400, the world untouched, exactly when
    every field is absent or the empty string: a field supplied as the
    empty string counts as not supplied. *)
Theorem update_rejected_iff_blank
    (name : string) (task_update : TaskUpdate) (w : world) :
  update_task name task_update w =
    (inl (HTTPException 400 "No fields to update provided"), w)
  ↔ blank (new_status task_update) ∧ blank (new_description task_update)
    ∧ blank (new_deadline task_update).
Proof.
  rewrite update_task_eq. unfold update_clauses, blank.
  destruct task_update as [[[|c1 s1]|] [[|c2 s2]|] [[|c3 s3]|]];
    cbn [new_status new_description new_deadline truthy_opt String.eqb negb app];
    (split;
     [ try (intros _; repeat split; auto; fail);
       cbv zeta; destruct (outcome _); intros [= ?]; discriminate
     | try reflexivity; intros (H1 & H2 & H3);
       destruct H1 as [?|?]; destruct H2 as [?|?]; destruct H3 as [?|?];
       discriminate ]).
Qed.

(** The worlds a list request can leave. *)
Lemma get_tasks_world (status_filter : option string) (use_cache : bool) (w : world) :
  let c := Call (list_message status_filter) None in
  let w' := snd (get_tasks status_filter use_cache w) in
  w' = w ∨
  ∃ w0, (w0 = w ∨ w0 = set_cache (delete "all_tasks") w) ∧
        (w' = after_call c w0 ∨
         ∃ v, w' = set_cache
                     (insert "all_tasks"
                        (CacheEntry v (clock (after_call c w0) + timedelta_seconds 60)))
                     (after_call c w0)).
Proof.
  cbv zeta.
  assert (Hfetch : ∀ store w0,
    snd (fetch_tasks status_filter store w0) =
      after_call (Call (list_message status_filter) None) w0 ∨
    ∃ v, snd (fetch_tasks status_filter store w0) =
           set_cache
             (insert "all_tasks"
                (CacheEntry v (clock (after_call (Call (list_message status_filter) None) w0)
                               + timedelta_seconds 60)))
             (after_call (Call (list_message status_filter) None) w0)).
  { intros store w0. unfold fetch_tasks. cbv zeta.
    destruct (outcome _) as [err|body]; [now left|].
    destruct (py_len _), store; cbn [snd]; eauto. }
  destruct use_cache.
  - destruct (truthy (fresh_value "all_tasks" w)) eqn:Hc.
    + left. now rewrite (get_tasks_hit _ _ Hc).
    + right. rewrite (get_tasks_miss _ _ Hc).
      exists (snd (cache_get "all_tasks" w)). split; [|apply Hfetch].
      destruct (cache_get_snd "all_tasks" w) as [->|[_ ->]]; auto.
  - right. rewrite get_tasks_no_cache. exists w. split; [now left|apply Hfetch].
Qed.

(** The worlds any request can leave: the cache is touched at [all_tasks]
    only, by a deletion or by an entry that expires 60 seconds after the
    clock of the answer; at most one call is added; the clock does not go
    back. *)
Lemma handle_world (r : request) (w : world) :
  let w' := handle r w in
  clock w ≤ clock w' ∧
  (∃ calls, sent w' = sent w ++ calls ∧ (length calls ≤ 1)%nat) ∧
  ∀ e, cache w' !! "all_tasks" = Some e →
       cache w !! "all_tasks" = Some e ∨
       expires_at e = clock w' + timedelta_seconds 60.
Proof.
  cbv zeta.
  assert (Hsame : clock w ≤ clock w ∧
                  (∃ calls, sent w = sent w ++ calls ∧ (length calls ≤ 1)%nat) ∧
                  ∀ e, cache w !! "all_tasks" = Some e →
                       cache w !! "all_tasks" = Some e ∨
                       expires_at e = clock w + timedelta_seconds 60).
  { split; [lia|]. split; [|auto].
    exists (@nil call). rewrite app_nil_r. split; [done|cbn; lia]. }
  assert (Hcall : ∀ c (keep : bool),
            let w1 := if keep then after_call c w
                      else set_cache (delete "all_tasks") (after_call c w) in
            clock w ≤ clock w1 ∧
            (∃ calls, sent w1 = sent w ++ calls ∧ (length calls ≤ 1)%nat) ∧
            ∀ e, cache w1 !! "all_tasks" = Some e →
                 cache w !! "all_tasks" = Some e ∨
                 expires_at e = clock w1 + timedelta_seconds 60).
  { intros c keep. cbv zeta.
    destruct keep; cbn [after_call set_cache clock sent cache].
    - split; [lia|]. split; [exists [c]; split; [done|cbn; lia]|auto].
    - split; [lia|]. split; [exists [c]; split; [done|cbn; lia]|].
      intros e He. now rewrite lookup_delete_eq in He. }
  destruct r as [sf uc|body|name u|name|mr| | |]; cbn [handle].
  - destruct (get_tasks_world sf uc w) as [->|(w0 & Hw0 & Hw')]; [exact Hsame|].
    assert (H0 : clock w0 = clock w ∧ sent w0 = sent w ∧
                 ∀ e, cache w0 !! "all_tasks" = Some e → cache w !! "all_tasks" = Some e).
    { destruct Hw0 as [->| ->]; [auto|].
      cbn [set_cache clock sent cache]. repeat split.
      intros e He. now rewrite lookup_delete_eq in He. }
    destruct H0 as (Hc & Hs & Hsub).
    destruct Hw' as [->|[v ->]]; cbn [after_call set_cache clock sent cache];
      rewrite ?Hc, ?Hs.
    + split; [lia|]. split; [eexists; split; [reflexivity|cbn; lia]|]. auto.
    + split; [lia|]. split; [eexists; split; [reflexivity|cbn; lia]|].
      intros e. rewrite lookup_insert_eq. intros [= <-]. now right.
  - unfold post_tasks. step_m.
    destruct (TaskCreate_validate body) as [e|task]; [exact Hsame|].
    rewrite create_task_eq. cbv zeta.
    destruct (outcome _); cbn [snd];
      [exact (Hcall _ true)|exact (Hcall _ false)].
  - rewrite update_task_eq.
    destruct (update_clauses u); [exact Hsame|]. cbv zeta.
    destruct (outcome _); cbn [snd];
      [exact (Hcall _ true)|exact (Hcall _ false)].
  - rewrite delete_task_eq. cbv zeta.
    destruct (outcome _); cbn [snd];
      [exact (Hcall _ true)|exact (Hcall _ false)].
  - rewrite send_message_eq. cbv zeta.
    destruct (outcome _); cbn [snd]; [exact (Hcall _ true)|].
    destruct (mentions_action _); [exact (Hcall _ false)|exact (Hcall _ true)].
  - rewrite get_task_stats_snd. exact (Hcall _ true).
  - unfold health_check, n8n_test_connection. step_m.
    destruct (n8n_probe (sent w)); exact Hsame.
  - exact Hsame.
Qed.

(** X10. A request calls the gateway at most once: there is no retry, and the
    health check and the root page make no call at all. *)
Theorem at_most_one_gateway_call (r : request) (w : world) :
  (∃ calls, sent (handle r w) = sent w ++ calls ∧ (length calls ≤ 1)%nat) ∧
  (r = GetHealth ∨ r = GetRoot → sent (handle r w) = sent w).
Proof.
  split; [exact (proj1 (proj2 (handle_world r w)))|].
  intros [-> | ->]; cbn [handle]; [|reflexivity].
  unfold health_check, n8n_test_connection. step_m.
  destruct (n8n_probe (sent w)); reflexivity.
Qed.

(** X11. Whatever requests were served since start-up and however long they
    took, the cached list, if there is one, expires at most 60 seconds from
    now: no answer from the cache is older than 60 seconds. *)
Theorem cached_list_is_at_most_60_seconds_old
    (es : list event) (t0 : Z) (e : cache_entry) :
  let w := serve es (startup t0) in
  cache w !! "all_tasks" = Some e →
  expires_at e ≤ clock w + timedelta_seconds 60.
Proof.
  cbv zeta.
  assert (Hinv : ∀ es w,
            (∀ e, cache w !! "all_tasks" = Some e →
                  expires_at e ≤ clock w + timedelta_seconds 60) →
            ∀ e, cache (serve es w) !! "all_tasks" = Some e →
                 expires_at e ≤ clock (serve es w) + timedelta_seconds 60).
  { clear. intros es. unfold serve.
    induction es as [|ev es IH]; intros w Hw; [exact Hw|].
    cbn [fold_left]. apply IH. intros e He.
    destruct ev as [r|d]; cbn [occur] in *.
    - destruct (handle_world r w) as (Hclock & _ & Hentry).
      destruct (Hentry e He) as [Hold| ->]; [|lia].
      specialize (Hw e Hold). lia.
    - unfold elapse in *. cbn [cache clock] in *. specialize (Hw e He). lia. }
  apply Hinv. intros e0. cbn [startup cache]. now rewrite lookup_empty.
Qed.

(** The list handler once a reply has been stored, [d] microseconds later. *)
Lemma fresh_value_after_store
    (status_filter : option string) (w : world) (body : dict) (d : N) :
  truthy (fresh_value "all_tasks" w) = false →
  outcome (n8n (sent w) (Call (list_message status_filter) None)) = inr body →
  let v := dict_get_default "tasks" (JList []) body in
  let w1 := snd (get_tasks status_filter true w) in
  cache w1 !! "all_tasks" = Some (CacheEntry v (clock w1 + timedelta_seconds 60)) ∧
  fresh_value "all_tasks" (elapse d w1) =
    if Z.of_N d <? timedelta_seconds 60 then v else JNull.
Proof.
  intros Hmiss Hok. cbv zeta.
  rewrite (get_tasks_miss _ _ Hmiss).
  destruct (cache_get_clock_sent "all_tasks" w) as [_ Hs].
  unfold fetch_tasks. cbv zeta. rewrite Hs, Hok.
  set (w0 := snd (cache_get "all_tasks" w)).
  set (v := dict_get_default "tasks" (JList []) body).
  assert (Hboth : ∀ w1,
            w1 = set_cache (insert "all_tasks"
                   (CacheEntry v (clock (after_call (Call (list_message status_filter) None) w0)
                                  + timedelta_seconds 60)))
                   (after_call (Call (list_message status_filter) None) w0) →
            cache w1 !! "all_tasks" = Some (CacheEntry v (clock w1 + timedelta_seconds 60)) ∧
            fresh_value "all_tasks" (elapse d w1) =
              if Z.of_N d <? timedelta_seconds 60 then v else JNull).
  { intros w1 ->. cbn [set_cache cache clock]. rewrite lookup_insert_eq.
    split; [reflexivity|].
    unfold fresh_value, elapse. cbn [set_cache cache clock].
    rewrite lookup_insert_eq. cbn [expires_at value].
    destruct (Z.ltb_spec (Z.of_N d) (timedelta_seconds 60)) as [Hd|Hd];
      match goal with |- context [?a <? ?b] => destruct (Z.ltb_spec a b) end;
      try reflexivity; lia. }
  destruct (py_len v); cbn [snd]; now apply Hboth.
Qed.

(** X4. A reply whose [tasks] has no length (null, a boolean, a number) is
    stored before [len] fails: the request is answered 500, and when the
    value is truthy every list request of the next 60 seconds finds it in
    the cache and is answered 500 as well, without a gateway call. *)
Theorem unsized_tasks_poison_cache
    (status_filter : option string) (w : world) (body : dict) (e : exn) :
  truthy (fresh_value "all_tasks" w) = false →
  outcome (n8n (sent w) (Call (list_message status_filter) None)) = inr body →
  let v := dict_get_default "tasks" (JList []) body in
  py_len v = inl e →
  let w1 := snd (get_tasks status_filter true w) in
  let failed := inl (HTTPException 500 ("Failed to fetch tasks: " +:+ exn_str e)) in
  fst (get_tasks status_filter true w) = failed ∧
  cache w1 !! "all_tasks" = Some (CacheEntry v (clock w1 + timedelta_seconds 60)) ∧
  (truthy v = true →
   ∀ (d : N) (filter2 : option string),
     Z.of_N d < timedelta_seconds 60 →
     get_tasks filter2 true (elapse d w1) = (failed, elapse d w1)).
Proof.
  intros Hmiss Hok. cbv zeta. intros Hlen.
  destruct (fresh_value_after_store status_filter w body 0 Hmiss Hok) as [Hstore _].
  split; [|split; [exact Hstore|]].
  - rewrite (get_tasks_miss _ _ Hmiss).
    destruct (cache_get_clock_sent "all_tasks" w) as [_ Hs].
    unfold fetch_tasks. cbv zeta. now rewrite Hs, Hok, Hlen.
  - intros Htruthy d filter2 Hd.
    destruct (fresh_value_after_store status_filter w body d Hmiss Hok) as [_ Hfresh].
    cbv zeta in Hfresh.
    destruct (Z.ltb_spec (Z.of_N d) (timedelta_seconds 60)); [|lia].
    rewrite get_tasks_hit; rewrite Hfresh; [now rewrite Hlen|exact Htruthy].
Qed.

(** X5. A stored list is served for 60 seconds and no longer: a list request
    made [d] microseconds after the one that stored a non-empty list calls
    the gateway exactly when [d] is 60 seconds or more. *)
Theorem list_entry_expires_after_60_seconds
    (filter1 filter2 : option string) (w : world) (body : dict)
    (t : json) (ts : list json) (d : N) :
  truthy (fresh_value "all_tasks" w) = false →
  outcome (n8n (sent w) (Call (list_message filter1) None)) = inr body →
  dict_get_default "tasks" (JList []) body = JList (t :: ts) →
  let w1 := elapse d (snd (get_tasks filter1 true w)) in
  sent (snd (get_tasks filter2 true w1)) =
  sent w1 ++ if Z.of_N d <? timedelta_seconds 60 then []
             else [Call (list_message filter2) None].
Proof.
  intros Hmiss Hok Hts. cbv zeta.
  destruct (fresh_value_after_store filter1 w body d Hmiss Hok) as [_ Hfresh].
  cbv zeta in Hfresh. rewrite Hts in Hfresh.
  destruct (Z.of_N d <? timedelta_seconds 60).
  - rewrite get_tasks_hit; rewrite Hfresh; [|reflexivity].
    cbn [snd]. now rewrite app_nil_r.
  - rewrite get_tasks_miss; rewrite ?Hfresh; [|reflexivity].
    rewrite fetch_tasks_sent.
    now destruct (cache_get_clock_sent "all_tasks"
                    (elapse d (snd (get_tasks filter1 true w)))) as [_ ->].
Qed.

Lemma one_bucket (t : dict) :
  let q := (has_status "TODO" t, has_status "IN PROGRESS" t,
            has_status "DONE" t, unclassified t) in
  q = (true, false, false, false) ∨ q = (false, true, false, false) ∨
  q = (false, false, true, false) ∨ q = (false, false, false, true).
Proof.
  cbv zeta. unfold unclassified, has_status, eq_str.
  destruct (dict_get "status" t) as [[| | | |s| |]|]; auto.
  destruct (String.eqb_spec s "TODO") as [->|_]; [auto|].
  destruct (String.eqb_spec s "IN PROGRESS") as [->|_]; [auto|].
  destruct (String.eqb s "DONE"); auto.
Qed.

Lemma tally_partition (ts : list dict) :
  (tally "TODO" ts + tally "IN PROGRESS" ts + tally "DONE" ts
   + length (List.filter unclassified ts) = length ts)%nat.
Proof.
  unfold tally. induction ts as [|t ts IH]; [reflexivity|].
  cbn [List.filter length].
  destruct (one_bucket t) as [Hb|[Hb|[Hb|Hb]]];
    injection Hb as -> -> -> ->; cbn [length]; lia.
Qed.

(** X12. The statistics partition the list: every task is counted in exactly one
    of TODO, IN PROGRESS and DONE, or in none when its status is missing or
    spelled otherwise; the three counts add up to the total less those. *)
Theorem stats_buckets_partition (w : world) (body : dict) (ts : list dict) :
  outcome (n8n (sent w) (Call "Show me all tasks" None)) = inr body →
  dict_get "tasks" body = Some (JList (map JDict ts)) →
  ∃ r, fst (get_task_stats w) = inr r ∧
       (TODO (by_status r) + IN_PROGRESS (by_status r) + DONE (by_status r)
        + length (List.filter unclassified ts) = total_tasks r)%nat.
Proof.
  intros Hok Hts.
  apply (dict_get_default_present _ (JList [])) in Hts.
  eexists. split; [exact (get_task_stats_dicts w body ts Hok Hts)|].
  cbn [by_status TODO IN_PROGRESS DONE total_tasks]. apply tally_partition.
Qed.

(** The quotient of a positive integer by itself is the float 1.0. *)
Lemma int_truediv_diag (p : positive) :
  int_truediv (Zpos p) (Zpos p) = S754_finite false 4503599627370496 (-52).
Proof.
  unfold int_truediv, float_of_Z, SFdiv.
  assert (Hcore : SFdiv_core_binary prec64 emax64 (Zpos p) 0 (Zpos p) 0 =
                  (2 ^ 53, -53, loc_Exact)).
  { unfold SFdiv_core_binary.
    replace (Zdigits2 (Zpos p) + 0 - (Zdigits2 (Zpos p) + 0)) with 0 by lia.
    change (Z.min (fexp prec64 emax64 0) (0 - 0)) with (-53).
    change (0 - 0 - -53) with 53. cbv beta iota zeta.
    rewrite Z.shiftl_mul_pow2 by lia.
    pose proof (Z.div_eucl_eq (Zpos p * 2 ^ 53) (Zpos p) ltac:(lia)) as Heq.
    pose proof (Z.mod_pos_bound (Zpos p * 2 ^ 53) (Zpos p) ltac:(lia)) as Hbound.
    assert (Hq : Zpos p * 2 ^ 53 / Zpos p = 2 ^ 53).
    { rewrite Z.mul_comm. apply Z.div_mul. lia. }
    assert (Hr : (Zpos p * 2 ^ 53) mod Zpos p = 0).
    { rewrite Z.mul_comm. apply Z.mod_mul. lia. }
    unfold Z.div, Z.modulo in Hq, Hr.
    destruct (Z.div_eucl (Zpos p * 2 ^ 53) (Zpos p)) as [q r].
    subst q r. unfold new_location.
    destruct (Z.even (Zpos p)); reflexivity. }
  change (xorb false false) with false.
  rewrite Hcore. vm_compute. reflexivity.
Qed.

(** X13. The completion rate at its two ends: 0.0 when no task is DONE and
    exactly 100.0 when every task is, whatever the number of tasks. *)
Theorem stats_rate_extremes (w : world) (body : dict) (ts : list dict) :
  outcome (n8n (sent w) (Call "Show me all tasks" None)) = inr body →
  dict_get "tasks" body = Some (JList (map JDict ts)) →
  ts ≠ [] →
  ∃ r, fst (get_task_stats w) = inr r ∧
       (DONE (by_status r) = 0%nat → completion_rate r = S754_zero false) ∧
       (DONE (by_status r) = total_tasks r →
        completion_rate r = float_literal 100 0).
Proof.
  intros Hok Hts Hne.
  apply (dict_get_default_present _ (JList [])) in Hts.
  eexists. split; [exact (get_task_stats_dicts w body ts Hok Hts)|].
  cbn [by_status DONE total_tasks completion_rate].
  destruct ts as [|t ts]; [done|].
  change (0 <? length (t :: ts))%nat with true. cbv iota.
  split.
  - intros ->. reflexivity.
  - intros ->. cbn [length]. rewrite Nat2Z.inj_succ.
    destruct (Z.succ (Z.of_nat (length ts))) as [|p|p] eqn:Hp; [lia| |lia].
    rewrite int_truediv_diag. vm_compute. reflexivity.
Qed.

Lemma raised_try_except_500 {A} (c : M A) (prefix : string) (w : world) (e : exn) :
  raised (try_except c
            (fun e0 => raise (HTTPException HTTP_500_INTERNAL_SERVER_ERROR
                                (prefix +:+ exn_str e0))) w) = Some e →
  ∃ detail, e = HTTPException 500 detail.
Proof.
  unfold raised, try_except, raise.
  destruct (c w) as [[e0|a] w0]; cbn [fst]; [|discriminate].
  intros [= <-]. eauto.
Qed.

(** X14. Every failure of a request is an HTTP error of the handlers' own
    making: 500 with a text, 400 for an update without fields, or the 422
    of the validation of a create; no other exception leaves a handler, so
    the catch-all handler for unexpected exceptions has nothing to catch. *)
Theorem failures_are_http_errors (r : request) (w : world) (e : exn) :
  failure r w = Some e →
  (∃ detail, e = HTTPException 500 detail) ∨
  (∃ name task_update, r = PutTask name task_update ∧
                       e = HTTPException 400 "No fields to update provided") ∨
  (∃ body, r = PostTasks body ∧ task_name body = "" ∧
           e = RequestValidationError "task_name").
Proof.
  destruct r as [sf uc|body|name u|name|mr| | |]; cbn [failure].
  - intros H. left. exact (raised_try_except_500 _ _ _ _ H).
  - unfold post_tasks, TaskCreate_validate. step_m.
    destruct (String.eqb_spec (task_name body) "") as [Hname|_].
    + unfold raised. cbn [fst]. intros [= <-]. right. right. eauto.
    + intros H. left. exact (raised_try_except_500 _ _ _ _ H).
  - rewrite update_task_eq. unfold raised.
    destruct (update_clauses u).
    + cbn [fst]. intros [= <-]. right. left. eauto.
    + cbv zeta. destruct (outcome _); cbn [fst]; [|discriminate].
      intros [= <-]. left. eauto.
  - intros H. left. exact (raised_try_except_500 _ _ _ _ H).
  - intros H. left. exact (raised_try_except_500 _ _ _ _ H).
  - intros H. left. exact (raised_try_except_500 _ _ _ _ H).
  - destruct (health_check_eq w) as (resp & -> & _). discriminate.
  - discriminate.
Qed.

Lemma count_status_non_object (wanted : string) (ds : list dict) (t : json)
    (rest : list json) :
  (∀ d, t ≠ JDict d) →
  count_status wanted (map JDict ds ++ t :: rest) =
  inl (AttributeError ("'" +:+ type_name t +:+ "' object has no attribute 'get'")).
Proof.
  intros Ht. induction ds as [|d ds IH].
  - cbn [map app count_status]. destruct t; try reflexivity. now destruct (Ht d).
  - cbn [map app count_status py_get]. now rewrite IH.
Qed.

(** X15. A task list with an item that is not an object makes the statistics
    fail with 500: the first such item has no [get] method. *)
Theorem stats_fail_on_non_object
    (w : world) (body : dict) (ds : list dict) (t : json) (rest : list json) :
  outcome (n8n (sent w) (Call "Show me all tasks" None)) = inr body →
  dict_get "tasks" body = Some (JList (map JDict ds ++ t :: rest)) →
  (∀ d, t ≠ JDict d) →
  fst (get_task_stats w) =
  inl (HTTPException 500
         ("Failed to fetch statistics: '" +:+ type_name t
          +:+ "' object has no attribute 'get'")).
Proof.
  intros Hok Hts Ht.
  apply (dict_get_default_present _ (JList [])) in Hts.
  unfold get_task_stats, sum_status. step_m.
  rewrite n8n_send_message_eq, Hok, Hts.
  cbn [py_len py_iter]. rewrite (count_status_non_object _ _ _ _ Ht).
  reflexivity.
Qed.

(** *** The keyword test of the message handler *)

Lemma startswith_prefix (p s : string) :
  startswith p s = true ↔ ∃ post, s = p +:+ post.
Proof.
  revert s. induction p as [|a p IH]; intros s.
  - split; [intros _; now exists s|reflexivity].
  - destruct s as [|b s]; cbn [startswith].
    + split; [discriminate|intros [post H]; discriminate].
    + rewrite andb_true_iff, IH. split.
      * intros [Hab [post ->]]. apply Ascii.eqb_eq in Hab as ->. now exists post.
      * intros [post H]. injection H as -> ->.
        split; [apply Ascii.eqb_refl|now exists post].
Qed.

Lemma str_in_substring (sub s : string) :
  str_in sub s = true ↔ ∃ pre post, s = pre +:+ sub +:+ post.
Proof.
  induction s as [|b s IH].
  - cbn [str_in]. rewrite orb_false_r, startswith_prefix. split.
    + intros [post H]. now exists "", post.
    + intros (pre & post & H). destruct pre; [now exists post|discriminate].
  - cbn [str_in]. rewrite orb_true_iff, startswith_prefix, IH. split.
    + intros [[post H]|(pre & post & H)].
      * now exists "", post.
      * exists (String b pre), post. now rewrite H.
    + intros (pre & post & H). destruct pre as [|a pre].
      * left. now exists post.
      * right. injection H as -> ->. now exists pre, post.
Qed.

Lemma lower_ascii_idem (c : ascii) : lower_ascii (lower_ascii c) = lower_ascii c.
Proof. destruct c as [[] [] [] [] [] [] [] []]; reflexivity. Qed.

Lemma lower_idem (s : string) : lower (lower s) = lower s.
Proof.
  induction s as [|c s IH]; [reflexivity|].
  cbn [lower]. now rewrite lower_ascii_idem, IH.
Qed.

Lemma lower_append (a b : string) : lower (a +:+ b) = lower a +:+ lower b.
Proof.
  induction a as [|c a IH]; [reflexivity|].
  change (String (lower_ascii c) (lower (a +:+ b)) =
          String (lower_ascii c) (lower a +:+ lower b)).
  now rewrite IH.
Qed.

(** X16. The keyword test of the message handler: it holds exactly when the
    lowercased text contains one of the six keywords as a run of
    characters; the case of the letters does not matter, and it still
    holds when the text is embedded in a longer one. *)
Theorem keyword_test_is_substring_search (text : string) :
  (mentions_action text = true ↔
   ∃ keyword pre post,
     keyword ∈ ["create"; "update"; "delete"; "add"; "remove"; "change"] ∧
     lower text = pre +:+ keyword +:+ post) ∧
  mentions_action (lower text) = mentions_action text ∧
  ∀ before after,
    mentions_action text = true →
    mentions_action (before +:+ text +:+ after) = true.
Proof.
  assert (Hspec : ∀ t, mentions_action t = true ↔
            ∃ keyword pre post,
              keyword ∈ action_keywords ∧ lower t = pre +:+ keyword +:+ post).
  { intros t. unfold mentions_action. rewrite existsb_exists. split.
    - intros (k & Hin & Hk). apply str_in_substring in Hk as (pre & post & H).
      exists k, pre, post. split; [now apply list_elem_of_In|exact H].
    - intros (k & pre & post & Hin & H). exists k.
      split; [now apply list_elem_of_In|]. apply str_in_substring. eauto. }
  split; [exact (Hspec text)|]. split.
  - unfold mentions_action. now rewrite lower_idem.
  - intros before after Hm. apply Hspec in Hm as (k & pre & post & Hin & H).
    apply Hspec. exists k, (lower before +:+ pre), (post +:+ lower after).
    split; [exact Hin|].
    now rewrite !lower_append, H, !append_assoc.
Qed.

(** X17. The fields are put between quotes without escaping, so the message
    does not tell where the name ends: a create request with a status sends
    the very call that a create request without status sends when its name
    carries the quote and the status clause. *)
Theorem create_message_is_not_escaped
    (name st : string) (descr dl : option string) (w : world) :
  st ≠ "" →
  let plain := {| task_name := name; status := Some st;
                  description := descr; deadline := dl |} in
  let forged := {| task_name := name +:+ "' with status '" +:+ st; status := None;
                   description := descr; deadline := dl |} in
  sent (snd (create_task forged w)) = sent (snd (create_task plain w)).
Proof.
  intros Hst. cbv zeta. rewrite !create_task_eq. cbv zeta.
  assert (Hmsg : create_message {| task_name := name +:+ "' with status '" +:+ st;
                                   status := None; description := descr;
                                   deadline := dl |} =
                 create_message {| task_name := name; status := Some st;
                                   description := descr; deadline := dl |}).
  { unfold create_message. cbv zeta.
    cbn [task_name status description deadline].
    unfold clause at 1 4. cbn [truthy_opt default].
    destruct (String.eqb_spec st "") as [->|_]; [done|]. cbn [negb].
    change ("" : string) with EmptyString.
    rewrite !append_assoc. reflexivity. }
  rewrite Hmsg. now destruct (outcome _).
Qed.

End Handlers.

(** ** The client of [app.py] *)

(** X18. A wrapper of the client reports success exactly when the request was
    answered with a status outside 400-599 and a body that decodes, and then
    hands the decoded body over as it is; for a status from 400 to 599 the
    error it reports is made of the status line and the URL alone, so the
    body of the answer, with the detail the server gave, is not in it. *)
Theorem client_result_reflects_status (answer : string + APIClient.http_response) :
  (dict_get "success" (APIClient.guarded answer) = Some (JBool true) ↔
   ∃ resp v, answer = inr resp ∧
             ¬ (400 ≤ APIClient.status_code resp < 600) ∧
             APIClient.content resp = inr v ∧
             APIClient.guarded answer = APIClient.succeeded v) ∧
  (∀ resp body,
     answer = inr resp →
     400 ≤ APIClient.status_code resp < 600 →
     APIClient.guarded answer =
     APIClient.guarded
       (inr {| APIClient.status_code := APIClient.status_code resp;
               APIClient.reason := APIClient.reason resp;
               APIClient.final_url := APIClient.final_url resp;
               APIClient.content := body |})).
Proof.
  split.
  - unfold APIClient.guarded, APIClient.raise_for_status.
    destruct answer as [err|resp]; cbn [dict_get APIClient.failed String.eqb].
    { split; [discriminate|]. now intros (resp & v & [=] & _). }
    destruct (Z.leb_spec 400 (APIClient.status_code resp));
      destruct (Z.ltb_spec (APIClient.status_code resp) 500);
      destruct (Z.leb_spec 500 (APIClient.status_code resp));
      destruct (Z.ltb_spec (APIClient.status_code resp) 600);
      cbn [andb]; try lia;
      try (split; [discriminate|intros (resp' & v & [= <-] & Hcode & _); lia]);
      (destruct (APIClient.content resp) as [err|v] eqn:Hbody;
       [ split; [discriminate|];
         intros (resp' & v & [= <-] & _ & Hv & _); congruence
       | split; [|reflexivity]; intros _; exists resp, v;
         repeat split; try reflexivity; try exact Hbody; lia ]).
  - intros resp body -> Hcode.
    unfold APIClient.guarded, APIClient.raise_for_status.
    cbn [APIClient.status_code APIClient.reason APIClient.final_url].
    destruct (Z.leb_spec 400 (APIClient.status_code resp));
      destruct (Z.ltb_spec (APIClient.status_code resp) 500);
      destruct (Z.leb_spec 500 (APIClient.status_code resp));
      destruct (Z.ltb_spec (APIClient.status_code resp) 600);
      cbn [andb]; try lia; reflexivity.
Qed.

(** X19. The health check of the client reports a connection only for status
    200 with a JSON object that has a [status] member; any other status,
    201 or 204 included, is reported as an error, and the check answers
    instead of raising unless the status is 200. *)
Theorem client_health_check_wants_200
    (requests : APIClient.http_request → string + APIClient.http_response)
    (json_error_is_request_exception : bool) (py_str : json → string)
    (base_url : string) :
  let request := {| APIClient.method := "GET";
                    APIClient.url := base_url +:+ "/health";
                    APIClient.params := []; APIClient.payload := None;
                    APIClient.timeout := 10 |} in
  let check := APIClient.health_check requests json_error_is_request_exception
                 py_str base_url in
  ((∃ msg, check = inr (true, msg)) ↔
   ∃ resp data v, requests request = inr resp ∧
                  APIClient.status_code resp = 200 ∧
                  APIClient.content resp = inr (JDict data) ∧
                  dict_get "status" data = Some v) ∧
  (∀ resp, requests request = inr resp → APIClient.status_code resp ≠ 200 →
           check = inr (false, "❌ Error: "
                               +:+ APIClient.str_of_int (APIClient.status_code resp))) ∧
  (∀ e, check = inl e →
        ∃ resp, requests request = inr resp ∧ APIClient.status_code resp = 200).
Proof.
  cbv zeta. unfold APIClient.health_check.
  destruct (requests _) as [err|resp].
  { split; [|split].
    - split; [intros [msg H]; discriminate H|].
      intros (resp & data & v & H & _). discriminate H.
    - intros resp H. discriminate H.
    - intros e H. discriminate H. }
  destruct (Z.eqb_spec (APIClient.status_code resp) 200) as [Hcode|Hcode].
  - split; [|split].
    + destruct (APIClient.content resp) as [err|body] eqn:Hbody.
      { split.
        - intros [msg H]. destruct json_error_is_request_exception; discriminate H.
        - intros (resp' & data & v & [= <-] & _ & H & _). congruence. }
      assert (Hother : (∀ data, body ≠ JDict data) →
                (∃ msg, @inl APIClient.client_exn (bool * string) (APIClient.NotSubscriptable body)
                        = inr (true, msg)) ↔
                ∃ resp0 data v, @inr string _ resp = inr resp0 ∧
                                APIClient.status_code resp0 = 200 ∧
                                APIClient.content resp0 = inr (JDict data) ∧
                                dict_get "status" data = Some v).
      { intros Hnot. split; [intros [msg H]; discriminate H|].
        intros (resp' & data & v & [= <-] & _ & H & _).
        rewrite Hbody in H. injection H as ->. now destruct (Hnot data). }
      destruct body as [| | | | | |data]; try (apply Hother; discriminate).
      destruct (dict_get "status" data) as [v|] eqn:Hst.
      * split; [intros _; exists resp, data, v; auto|eauto].
      * split; [intros [msg H]; discriminate H|].
        intros (resp' & data' & v & [= <-] & _ & H & Hv).
        rewrite Hbody in H. injection H as <-. congruence.
    + intros resp' [= <-] Hne. contradiction.
    + intros e _. eauto.
  - split; [|split].
    + split; [intros [msg H]; discriminate H|].
      intros (resp' & data & v & [= <-] & Hc & _). contradiction.
    + intros resp' [= <-] _. reflexivity.
    + intros e H. discriminate H.
Qed.

(** ** The claims at concrete requests *)

Lemma mutation_invalidates_list_cache_witness :
  let n8n := Mock.agent Mock.ok in
  let w1 := snd (mutate n8n (Delete "Test Task") Mock.cached_world) in
  cache Mock.cached_world !! "all_tasks"
    = Some (CacheEntry (JList [JDict Mock.test_task]) 60000000) ∧
  cache w1 !! "all_tasks" = None ∧
  sent (snd (get_tasks n8n true None true (elapse 1000000 w1)))
    = [Call "Delete the task 'Test Task' - yes, I'm sure" None;
       Call "Show me all tasks" None].
Proof.
  cbv zeta. split; [reflexivity|].
  destruct (mutation_invalidates_list_cache (Mock.agent Mock.ok) true
              (Delete "Test Task") Mock.cached_world
              (Call "Delete the task 'Test Task' - yes, I'm sure" None) Mock.ok
              eq_refl eq_refl) as (_ & Hgone & Hnext).
  split; [exact Hgone|].
  exact (proj1 (Hnext 1000000%N None)).
Defined.

Lemma single_cache_key_witness :
  let n8n := Mock.agent [("tasks", JList (map JDict Mock.three_tasks))] in
  let w1 := elapse 1000000 (snd (get_tasks n8n true None true (startup 0))) in
  get_tasks n8n true (Some "DONE") true w1 =
  (inr {| tasks := JList (map JDict Mock.three_tasks); count := 3;
          list_timestamp := 1250000 |}, w1).
Proof.
  cbv zeta.
  exact (proj2 (proj2 (single_cache_key
                         (Mock.agent [("tasks", JList (map JDict Mock.three_tasks))])
                         Mock.probe true))
           None (Some "DONE") (startup 0)
           [("tasks", JList (map JDict Mock.three_tasks))]
           (JDict [("status", JStr "TODO")])
           (map JDict [[("status", JStr "IN PROGRESS")]; [("status", JStr "DONE")]])
           1000000%N eq_refl eq_refl eq_refl eq_refl).
Defined.

Lemma unserved_list_request_fetches_witness :
  let body := [("tasks", JList (map JDict Mock.three_tasks))] in
  let w' := snd (get_tasks (Mock.agent body) true (Some "TODO") true (startup 0)) in
  sent w' = [Call "Show me all tasks with status TODO" None] ∧
  fst (get_tasks (Mock.agent body) true (Some "TODO") true (startup 0)) =
    inr {| tasks := JList (map JDict Mock.three_tasks); count := 3;
           list_timestamp := 250000 |} ∧
  cache w' !! "all_tasks" =
    Some (CacheEntry (JList (map JDict Mock.three_tasks)) 60250000).
Proof.
  cbv zeta.
  destruct (unserved_list_request_fetches
              (Mock.agent [("tasks", JList (map JDict Mock.three_tasks))]) true
              (Some "TODO") true (startup 0) (fun _ => eq_refl)) as [Hsent Hfetch].
  split; [exact Hsent|].
  destruct (Hfetch [("tasks", JList (map JDict Mock.three_tasks))]
              (map JDict Mock.three_tasks) eq_refl eq_refl) as (Hr & Hstore & _).
  split; [exact Hr|exact (Hstore eq_refl)].
Defined.

(** C4 as stated fails with [use_cache] unset: the request is not served
    from the cache, the handler asks the gateway and answers its three
    tasks, and stores nothing: the cache has no entry afterwards. *)
Lemma list_without_cache_stores_nothing :
  let body := [("tasks", JList (map JDict Mock.three_tasks))] in
  let w := startup 0 in
  let w' := snd (get_tasks (Mock.agent body) true None false w) in
  truthy (fresh_value "all_tasks" w) = false ∧
  sent w' = [Call "Show me all tasks" None] ∧
  fst (get_tasks (Mock.agent body) true None false w) =
    inr {| tasks := JList (map JDict Mock.three_tasks); count := 3;
           list_timestamp := 250000 |} ∧
  cache w' !! "all_tasks" = None.
Proof. cbv zeta. repeat split. Qed.

Lemma message_invalidates_on_keyword_witness :
  let request := {| text := "Please DELETE Test Task"; session_id := Some "test-session" |} in
  cache (snd (send_message (Mock.agent Mock.ok) request Mock.cached_world)) =
  delete "all_tasks" (cache Mock.cached_world).
Proof.
  cbv zeta.
  exact (message_invalidates_on_keyword (Mock.agent Mock.ok)
           {| text := "Please DELETE Test Task"; session_id := Some "test-session" |}
           Mock.cached_world
           {| response := Mock.ok; message_timestamp := 1250000 |} eq_refl).
Defined.

Lemma stats_of_task_list_witness :
  let body := [("tasks", JList (map JDict Mock.three_tasks))] in
  ∃ r, fst (get_task_stats (Mock.agent body) (startup 0)) = inr r ∧
       total_tasks r = 3%nat ∧
       by_status r = {| TODO := 1; IN_PROGRESS := 1; DONE := 1 |} ∧
       completion_rate r = float_literal 3333 2.
Proof.
  cbv zeta.
  destruct (stats_of_task_list
              (Mock.agent [("tasks", JList (map JDict Mock.three_tasks))])
              (startup 0) [("tasks", JList (map JDict Mock.three_tasks))]
              Mock.three_tasks eq_refl eq_refl)
    as (r & Hr & _ & _ & _ & _ & Hthree).
  exists r. split; [exact Hr|].
  exact (Hthree eq_refl eq_refl eq_refl eq_refl).
Defined.

Lemma missing_tasks_field_is_empty_list_witness :
  let n8n := Mock.agent Mock.ok in
  let w' := snd (get_tasks n8n true None true (startup 0)) in
  (fst (get_tasks n8n true None true (startup 0)) =
     inr {| tasks := JList []; count := 0; list_timestamp := clock w' |} ∧
   cache w' !! "all_tasks" =
     Some (CacheEntry (JList []) (clock w' + timedelta_seconds 60))) ∧
  ∃ r, fst (get_task_stats n8n (startup 0)) = inr r ∧
       total_tasks r = 0%nat ∧
       by_status r = {| TODO := 0; IN_PROGRESS := 0; DONE := 0 |} ∧
       completion_rate r = S754_zero false.
Proof.
  cbv zeta.
  destruct (missing_tasks_field_is_empty_list (Mock.agent Mock.ok) true
              None true (startup 0) Mock.ok eq_refl) as [Hlist Hstats].
  split.
  - destruct (Hlist (fun _ => eq_refl) eq_refl) as [Hr Hstore].
    split; [exact Hr|exact (Hstore eq_refl)].
  - exact (Hstats eq_refl).
Defined.

(** C2 at the request the handler mishandles.  The first list request is
    answered an empty list by the gateway and stores it for 60 seconds; one
    second later the entry is there and not expired, yet the second list
    request calls the gateway again and answers the gateway's new reply
    instead of the cached list: the test [if cached_tasks:] takes the
    empty list for a miss. *)
Theorem cached_empty_list_is_fetched_again :
  let n8n := Mock.agent_then [("tasks", JList [])]
                             [("tasks", JList [JDict Mock.test_task])] in
  let w1 := serve n8n Mock.probe true
              [Request (GetTasks None true); Elapse 1000000] (startup 0) in
  cache w1 !! "all_tasks" = Some (CacheEntry (JList []) 60250000) ∧
  clock w1 = 1250000 ∧
  fresh_value "all_tasks" w1 = JList [] ∧
  sent w1 = [Call "Show me all tasks" None] ∧
  fst (get_tasks n8n true None true w1) =
    inr {| tasks := JList [JDict Mock.test_task]; count := 1;
           list_timestamp := 1500000 |} ∧
  sent (snd (get_tasks n8n true None true w1)) =
    [Call "Show me all tasks" None; Call "Show me all tasks" None].
Proof. cbv zeta. repeat split. Qed.

(** ** The tests of [test.py], replayed *)

Example test_create_task_success :
  sent (snd (create_task (Mock.agent Mock.ok)
               {| task_name := "New Task"; status := Some "TODO";
                  description := Some "Test task"; deadline := Some "2025-12-31" |}
               (startup 0))) =
  [Call "Create a new task called 'New Task' with status 'TODO' and description 'Test task' with deadline '2025-12-31'" None].
Proof. reflexivity. Qed.

Example test_update_task_success :
  update_task (Mock.agent Mock.ok) "Test Task"
    {| new_status := Some "IN PROGRESS"; new_description := None;
       new_deadline := None |} (startup 0) =
  (inr {| success := true;
          message := "Task 'Test Task' updated successfully";
          data := [("task_name", JStr "Test Task"); ("status", JStr "IN PROGRESS")];
          task_timestamp := 250000 |},
   {| cache := delete "all_tasks" ∅; clock := 250000;
      sent := [Call "Update the task 'Test Task' - change status to 'IN PROGRESS'" None] |}).
Proof. reflexivity. Qed.

Example test_update_two_fields :
  Template.update "Test Task" (Some "DONE") None (Some "2026-01-31") =
  "Update the task 'Test Task' - change status to 'DONE', deadline to '2026-01-31'".
Proof. reflexivity. Qed.

Example test_get_tasks_with_filter :
  sent (snd (get_tasks (Mock.agent [("tasks", JList [])]) true (Some "TODO") true
               (startup 0))) =
  [Call "Show me all tasks with status TODO" None].
Proof. reflexivity. Qed.

Example test_get_stats_success :
  fst (get_task_stats (Mock.agent [("tasks", JList (map JDict Mock.three_tasks))])
         (startup 0)) =
  inr {| total_tasks := 3;
         by_status := {| TODO := 1; IN_PROGRESS := 1; DONE := 1 |};
         completion_rate := S754_finite false 4690780486883082 (-47);
         stats_timestamp := 250000 |}.
Proof. vm_compute. reflexivity. Qed.

(** The float of the statistics above is the one nearest to 33.33: it is
    [m * 2^-47] with [|100 m - 3333 * 2^47| <= 50], half a unit in the last
    place on the scale of hundredths. *)
Example completion_rate_33_33 :
  float_literal 3333 2 = S754_finite false 4690780486883082 (-47) ∧
  Z.abs (100 * 4690780486883082 - 3333 * 2 ^ 47) <= 50.
Proof. split; [vm_compute; reflexivity|]. vm_compute. discriminate. Qed.

Example round_half_even :
  py_round (float_literal 125 3) 2 = float_literal 12 2 ∧
  py_round (float_literal 375 3) 2 = float_literal 38 2 ∧
  py_round (float_literal 2675 3) 2 = float_literal 267 2.
Proof. repeat split; vm_compute; reflexivity. Qed.

Example mentions_action_examples :
  mentions_action "Please DELETE Test Task" = true ∧
  mentions_action "Show me all tasks" = false ∧
  mentions_action "What is the address?" = true.
Proof. repeat split. Qed.

(** ** The further properties at concrete requests *)

Lemma failed_mutation_keeps_cache_witness :
  let n8n := Mock.agent_down "Connection refused" in
  let task := {| task_name := "New Task"; status := Some "TODO";
                 description := None; deadline := None |} in
  fst (mutate n8n (Create task) Mock.cached_world) =
    inl (HTTPException 500 "Failed to create task: Connection refused") ∧
  cache (snd (mutate n8n (Create task) Mock.cached_world)) = cache Mock.cached_world.
Proof.
  cbv zeta.
  exact (failed_mutation_keeps_cache (Mock.agent_down "Connection refused")
           (Create {| task_name := "New Task"; status := Some "TODO";
                      description := None; deadline := None |})
           Mock.cached_world
           (Call "Create a new task called 'New Task' with status 'TODO'" None)
           "Connection refused" eq_refl eq_refl).
Defined.

Lemma failed_message_keeps_cache_witness :
  let n8n := Mock.agent_down "Connection refused" in
  let request := {| text := "delete Test Task"; session_id := None |} in
  fst (send_message n8n request Mock.cached_world) =
    inl (HTTPException 500 "Failed to process message: Connection refused") ∧
  cache (snd (send_message n8n request Mock.cached_world)) = cache Mock.cached_world.
Proof.
  cbv zeta.
  exact (failed_message_keeps_cache (Mock.agent_down "Connection refused")
           {| text := "delete Test Task"; session_id := None |}
           Mock.cached_world "Connection refused" eq_refl).
Defined.

Lemma failed_list_stores_nothing_witness :
  let n8n := Mock.agent_down "Connection refused" in
  fst (get_tasks n8n true None true (startup 0)) =
    inl (HTTPException 500 "Failed to fetch tasks: Connection refused") ∧
  ∀ k e, cache (snd (get_tasks n8n true None true (startup 0))) !! k = Some e →
         cache (startup 0) !! k = Some e.
Proof.
  cbv zeta.
  exact (failed_list_stores_nothing (Mock.agent_down "Connection refused") true
           None true (startup 0) "Connection refused" (fun _ => eq_refl) eq_refl).
Defined.

Lemma at_most_one_gateway_call_witness :
  sent (handle (Mock.agent Mock.ok) Mock.probe true GetHealth Mock.cached_world) =
  sent Mock.cached_world.
Proof.
  exact (proj2 (at_most_one_gateway_call (Mock.agent Mock.ok) Mock.probe true
                  GetHealth Mock.cached_world) (or_introl eq_refl)).
Defined.

Lemma cached_list_is_at_most_60_seconds_old_witness :
  let n8n := Mock.agent [("tasks", JList (map JDict Mock.three_tasks))] in
  let w := serve n8n Mock.probe true
             [Request (GetTasks None true); Elapse 5000000] (startup 0) in
  cache w !! "all_tasks" =
    Some (CacheEntry (JList (map JDict Mock.three_tasks)) 60250000) ∧
  60250000 ≤ clock w + timedelta_seconds 60.
Proof.
  cbv zeta. split; [reflexivity|].
  exact (cached_list_is_at_most_60_seconds_old
           (Mock.agent [("tasks", JList (map JDict Mock.three_tasks))])
           Mock.probe true
           [Request (GetTasks None true); Elapse 5000000] 0
           (CacheEntry (JList (map JDict Mock.three_tasks)) 60250000) eq_refl).
Defined.

Lemma unsized_tasks_poison_cache_witness :
  let n8n := Mock.agent [("tasks", JInt 5)] in
  let failed :=
    inl (HTTPException 500 "Failed to fetch tasks: object of type 'int' has no len()") in
  let w1 := snd (get_tasks n8n true None true (startup 0)) in
  fst (get_tasks n8n true None true (startup 0)) = failed ∧
  cache w1 !! "all_tasks" = Some (CacheEntry (JInt 5) 60250000) ∧
  get_tasks n8n true (Some "DONE") true (elapse 1000000 w1) =
    (failed, elapse 1000000 w1).
Proof.
  cbv zeta.
  destruct (unsized_tasks_poison_cache (Mock.agent [("tasks", JInt 5)]) true
              None (startup 0) [("tasks", JInt 5)]
              (TypeError "object of type 'int' has no len()")
              eq_refl eq_refl eq_refl) as (Hfail & Hstore & Hnext).
  split; [exact Hfail|]. split; [exact Hstore|].
  exact (Hnext eq_refl 1000000%N (Some "DONE") eq_refl).
Defined.

Lemma list_entry_expires_after_60_seconds_witness :
  let n8n := Mock.agent [("tasks", JList (map JDict Mock.three_tasks))] in
  let w1 := elapse 60000000 (snd (get_tasks n8n true None true (startup 0))) in
  sent (snd (get_tasks n8n true None true w1)) =
  [Call "Show me all tasks" None; Call "Show me all tasks" None].
Proof.
  cbv zeta.
  exact (list_entry_expires_after_60_seconds
           (Mock.agent [("tasks", JList (map JDict Mock.three_tasks))]) true
           None None (startup 0) [("tasks", JList (map JDict Mock.three_tasks))]
           (JDict [("status", JStr "TODO")])
           (map JDict [[("status", JStr "IN PROGRESS")]; [("status", JStr "DONE")]])
           60000000%N eq_refl eq_refl eq_refl).
Defined.

Lemma stats_buckets_partition_witness :
  let ts := Mock.three_tasks ++ [[("status", JStr "done")]; [("task_name", JStr "x")]] in
  ∃ r, fst (get_task_stats (Mock.agent [("tasks", JList (map JDict ts))]) (startup 0))
         = inr r ∧
       (TODO (by_status r) + IN_PROGRESS (by_status r) + DONE (by_status r) + 2
        = total_tasks r)%nat.
Proof.
  cbv zeta.
  exact (stats_buckets_partition
           (Mock.agent [("tasks", JList (map JDict
              (Mock.three_tasks ++ [[("status", JStr "done")]; [("task_name", JStr "x")]])))])
           (startup 0)
           [("tasks", JList (map JDict
              (Mock.three_tasks ++ [[("status", JStr "done")]; [("task_name", JStr "x")]])))]
           (Mock.three_tasks ++ [[("status", JStr "done")]; [("task_name", JStr "x")]])
           eq_refl eq_refl).
Defined.

Lemma stats_rate_extremes_witness :
  let ts := [[("status", JStr "DONE")]; [("status", JStr "DONE")]] in
  ∃ r, fst (get_task_stats (Mock.agent [("tasks", JList (map JDict ts))]) (startup 0))
         = inr r ∧
       completion_rate r = float_literal 100 0.
Proof.
  cbv zeta.
  destruct (stats_rate_extremes
              (Mock.agent [("tasks", JList (map JDict
                 [[("status", JStr "DONE")]; [("status", JStr "DONE")]]))])
              (startup 0)
              [("tasks", JList (map JDict
                 [[("status", JStr "DONE")]; [("status", JStr "DONE")]]))]
              [[("status", JStr "DONE")]; [("status", JStr "DONE")]]
              eq_refl eq_refl ltac:(discriminate)) as (r & Hr & _ & Hall).
  exists r. split; [exact Hr|].
  apply Hall. cbv in Hr. injection Hr as <-. reflexivity.
Defined.

Lemma failures_are_http_errors_witness :
  let r := PutTask "Test Task" {| new_status := None; new_description := Some "";
                                  new_deadline := None |} in
  (∃ detail, HTTPException 400 "No fields to update provided" = HTTPException 500 detail) ∨
  (∃ name task_update, r = PutTask name task_update ∧
     HTTPException 400 "No fields to update provided" =
     HTTPException 400 "No fields to update provided") ∨
  (∃ body, r = PostTasks body ∧ task_name body = "" ∧
     HTTPException 400 "No fields to update provided" =
     RequestValidationError "task_name").
Proof.
  cbv zeta.
  exact (failures_are_http_errors (Mock.agent Mock.ok) Mock.probe true
           (PutTask "Test Task" {| new_status := None; new_description := Some "";
                                   new_deadline := None |})
           (startup 0) (HTTPException 400 "No fields to update provided") eq_refl).
Defined.

Lemma stats_fail_on_non_object_witness :
  fst (get_task_stats
         (Mock.agent [("tasks", JList [JDict Mock.test_task; JStr "oops"])])
         (startup 0)) =
  inl (HTTPException 500
         "Failed to fetch statistics: 'str' object has no attribute 'get'").
Proof.
  refine (stats_fail_on_non_object
            (Mock.agent [("tasks", JList [JDict Mock.test_task; JStr "oops"])])
            (startup 0) [("tasks", JList [JDict Mock.test_task; JStr "oops"])]
            [Mock.test_task] (JStr "oops") [] eq_refl eq_refl _).
  discriminate.
Defined.

Lemma keyword_test_is_substring_search_witness :
  mentions_action "Delete" = true ∧
  mentions_action "Please Delete it" = true.
Proof.
  split; [reflexivity|].
  exact (proj2 (proj2 (keyword_test_is_substring_search "Delete"))
           "Please " " it" eq_refl).
Defined.

Lemma client_result_reflects_status_witness :
  let resp := {| APIClient.status_code := 400; APIClient.reason := "Bad Request";
                 APIClient.final_url := "http://localhost:8000/api/v1/tasks/x";
                 APIClient.content :=
                   inr (JDict [("error", JStr "No fields to update provided");
                               ("status_code", JInt 400)]) |} in
  APIClient.guarded (inr resp) =
  APIClient.failed
    "400 Client Error: Bad Request for url: http://localhost:8000/api/v1/tasks/x".
Proof.
  cbv zeta.
  etransitivity;
    [exact (proj2 (client_result_reflects_status
                     (inr {| APIClient.status_code := 400;
                             APIClient.reason := "Bad Request";
                             APIClient.final_url := "http://localhost:8000/api/v1/tasks/x";
                             APIClient.content :=
                               inr (JDict [("error", JStr "No fields to update provided");
                                           ("status_code", JInt 400)]) |}))
              _ (inl "") eq_refl ltac:(cbn [APIClient.status_code]; lia))
    |reflexivity].
Defined.

Lemma client_health_check_wants_200_witness :
  let requests := fun _ : APIClient.http_request =>
    inr {| APIClient.status_code := 204; APIClient.reason := "No Content";
           APIClient.final_url := "http://localhost:8000/health";
           APIClient.content := inl "Expecting value" |} in
  APIClient.health_check requests true (fun _ => "") "http://localhost:8000" =
  inr (false, "❌ Error: 204").
Proof.
  cbv zeta.
  refine (proj1 (proj2 (client_health_check_wants_200
                          (fun _ => inr {| APIClient.status_code := 204;
                                           APIClient.reason := "No Content";
                                           APIClient.final_url := "http://localhost:8000/health";
                                           APIClient.content := inl "Expecting value" |})
                          true (fun _ => "") "http://localhost:8000"))
            _ eq_refl _).
  discriminate.
Defined.

Lemma create_message_is_not_escaped_witness :
  let n8n := Mock.agent Mock.ok in
  sent (snd (create_task n8n
               {| task_name := "Report' with status 'DONE"; status := None;
                  description := None; deadline := None |} (startup 0))) =
  sent (snd (create_task n8n
               {| task_name := "Report"; status := Some "DONE";
                  description := None; deadline := None |} (startup 0))).
Proof.
  cbv zeta.
  refine (create_message_is_not_escaped (Mock.agent Mock.ok) "Report" "DONE"
            None None (startup 0) _).
  discriminate.
Defined.
